(** * CamShift tracking: a shallow embedding of [camshift_tracking.cpp]

    The program is glue code around the OpenCV library: a mouse callback
    that records region-of-interest (ROI) points, a routine that turns the
    points into a box and a hue histogram, and a frame loop that hands box
    and histogram to the mean-shift search.

    The embedding keeps the program's own state and control flow explicit:
    - the three globals [frame], [roi_points], [input_mode];
    - the locals of [main] that survive an iteration ([roi_box], [roi_hist]);
    - the calls into the vision library, taken as an interface [OpenCV]
      and recorded, in program order, as a list of [Event]s;
    - the outside world (camera frames, mouse clicks, key presses) as
      finite input lists, so that a run of the model is a finite prefix of
      a run of the program. *)

From Stdlib Require Import ZArith List Bool Lia QArith Qround Lqa.
From Stdlib Require String.
Import ListNotations.
Open Scope Z_scope.

(** ** Machine integers *)

Definition INT_MAX : Z := 2147483647.

(** Two's complement wrap-around of a [w]-bit signed integer. *)
Definition wrap_signed (w : Z) (n : Z) : Z :=
  (n + 2 ^ (w - 1)) mod 2 ^ w - 2 ^ (w - 1).

(** [int sum = point.x + point.y;] -- the addition of two [int]s.  Signed
    overflow is undefined in C++; the wrap-around written here is what the
    usual targets compute, and every theorem that depends on the sum
    carries the hypothesis that it does not overflow. *)
Definition int_add (a b : Z) : Z := wrap_signed 32 (a + b).

(** [static_cast<char>(n)] on a platform whose [char] is signed 8 bits. *)
Definition to_char (n : Z) : Z := wrap_signed 8 n.

Definition char_i : Z := 105.
Definition char_q : Z := 113.

(** ** Geometry: [cv::Point] and [cv::Rect] *)

Record Point := mkPoint { px : Z; py : Z }.

(** [cv::Point()] is the origin. *)
Definition Point_default : Point := mkPoint 0 0.

Record Rect := mkRect { rx : Z; ry : Z; rwidth : Z; rheight : Z }.

(** [cv::Rect()] *)
Definition Rect_default : Rect := mkRect 0 0 0 0.

(** [cv::Rect(pt1, pt2)]: the library's two-point constructor,
    [x = min(pt1.x, pt2.x); y = min(pt1.y, pt2.y);
     width = max(pt1.x, pt2.x) - x; height = max(pt1.y, pt2.y) - y]. *)
Definition Rect_of_points (pt1 pt2 : Point) : Rect :=
  let x := Z.min (px pt1) (px pt2) in
  let y := Z.min (py pt1) (py pt2) in
  mkRect x y (Z.max (px pt1) (px pt2) - x) (Z.max (py pt1) (py pt2) - y).

(** [Rect::tl()], [Rect::br()] and [Rect::empty()]. *)
Definition rect_tl (r : Rect) : Point := mkPoint (rx r) (ry r).
Definition rect_br (r : Rect) : Point :=
  mkPoint (rx r + rwidth r) (ry r + rheight r).
Definition rect_empty (r : Rect) : bool :=
  (rwidth r <=? 0) || (rheight r <=? 0).

(** ** The corner search of [frame_roi] (lines 66-84) *)

Definition point_sum (p : Point) : Z := int_add (px p) (py p).

Record Corners := mkCorners {
  min_sum : Z; top_left : Point; max_sum : Z; bottom_right : Point }.

(** [int min_sum = INT_MAX, max_sum = 0;] with both corners
    default-constructed. *)
Definition corners_init : Corners :=
  mkCorners INT_MAX Point_default 0 Point_default.

(** One round of the [for (const auto& point : roi_points_vec)] loop. *)
Definition corner_step (c : Corners) (point : Point) : Corners :=
  let sum := point_sum point in
  let c1 :=
    if sum <? min_sum c
    then mkCorners sum point (max_sum c) (bottom_right c)
    else c in
  if sum >? max_sum c1
  then mkCorners (min_sum c1) (top_left c1) sum point
  else c1.

Definition find_corners (roi_points_vec : list Point) : Corners :=
  fold_left corner_step roi_points_vec corners_init.

(** [roi_box = cv::Rect(top_left, bottom_right);] *)
Definition compute_roi_box (roi_points_vec : list Point) : Rect :=
  let c := find_corners roi_points_vec in
  Rect_of_points (top_left c) (bottom_right c).

(** ** Images: [cv::Mat] *)

(** A three-channel 8-bit pixel, and an image as its list of rows. *)
Definition Pixel : Type := Z * Z * Z.
Definition Mat : Type := list (list Pixel).

Definition mat_rows (m : Mat) : Z := Z.of_nat (length m).
Definition mat_cols (m : Mat) : Z :=
  match m with
  | [] => 0
  | row :: _ => Z.of_nat (length row)
  end.

(** [Mat::empty()]: no element at all. *)
Definition mat_empty (m : Mat) : bool :=
  (mat_rows m =? 0) || (mat_cols m =? 0).

(** [m(roi)]: the sub-image selected by a rectangle.  The library checks
    that the rectangle lies inside the image and raises otherwise
    ([None]). *)
Definition submat (m : Mat) (roi : Rect) : option Mat :=
  if (0 <=? rx roi) && (0 <=? rwidth roi) && (rx roi + rwidth roi <=? mat_cols m)
     && (0 <=? ry roi) && (0 <=? rheight roi) && (ry roi + rheight roi <=? mat_rows m)
  then Some (map (fun row => firstn (Z.to_nat (rwidth roi)) (skipn (Z.to_nat (rx roi)) row))
                 (firstn (Z.to_nat (rheight roi)) (skipn (Z.to_nat (ry roi)) m)))
  else None.

(** ** The vision library as an interface *)

(** A histogram is the list of its bin values ([float] in the library). *)
Definition Hist : Type := list Q.

Definition Scalar : Type := Z * Z * Z.
Definition green : Scalar := (0, 255, 0).

Record RotatedRect := mkRotatedRect {
  rr_center : Q * Q; rr_size : Q * Q; rr_angle : Q }.

(** [cv::TermCriteria(type, maxCount, epsilon)]. *)
Record TermCriteria := mkTermCriteria {
  tc_type : Z; tc_maxCount : Z; tc_epsilon : Q }.

Definition TermCriteria_COUNT : Z := 1.
Definition TermCriteria_EPS : Z := 2.
Definition COLOR_BGR2HSV : Z := 40.
Definition NORM_MINMAX : Z := 32.
Definition EVENT_LBUTTONDOWN : Z := 1.

(** The library calls the program makes.  Each field takes the arguments
    the call site passes and yields what the program reads back.
    [CamShift] also yields the search window it leaves in its in/out
    parameter. *)
Record OpenCV := mkOpenCV {
  circle : Mat -> Point -> Z -> Scalar -> Z -> Mat;
  cvtColor : Mat -> Z -> Mat;
  calcHist : Mat -> Z -> Q -> Q -> Hist;
  normalize : Hist -> Q -> Q -> Z -> Hist;
  calcBackProject : Mat -> Hist -> Mat;
  CamShift : Mat -> Rect -> TermCriteria -> RotatedRect * Rect;
  boxPoints : RotatedRect -> list Point;
  polylines : Mat -> list Point -> Scalar -> Z -> Mat
}.

(** What the library documents about the two histogram calls: [calcHist]
    fills [histSize] bins, and [normalize] with [NORM_MINMAX] keeps the
    number of values and maps them into the range between its two
    bounds. *)
Record OpenCV_contract (cv : OpenCV) : Prop := {
  calcHist_bins : forall img histSize lo hi,
    0 <= histSize -> length (calcHist cv img histSize lo hi) = Z.to_nat histSize;
  normalize_length : forall h a b norm_type,
    length (normalize cv h a b norm_type) = length h;
  normalize_minmax_range : forall h a b,
    (a <= b)%Q ->
    Forall (fun v => (a <= v /\ v <= b)%Q) (normalize cv h a b NORM_MINMAX)
}.

(** Calls that reach the outside, in program order. *)
Inductive Event :=
| EvPrintMessage
| EvOpenDevice (index : Z)
| EvOpenFile (path : String.string)
| EvImshow (img : Mat)
| EvCamShift (probImage : Mat) (window : Rect) (criteria : TermCriteria)
| EvRelease
| EvDestroyAllWindows.

Definition is_CamShift (e : Event) : bool :=
  match e with EvCamShift _ _ _ => true | _ => false end.

(** ** Inputs *)

(** A run of the program is driven by the frames the camera delivers, the
    calls of [cv::waitKey] that have returned, and the mouse events of the
    call that is still waiting when the observation ends ([pending]).
    [waitKey(0)] returns only on a key press, so clicks may well arrive in
    a wait that never returns. *)

(** What [cv::CommandLineParser] with the keys [{help h||}{@video||}]
    reports about [argv]. *)
Record ParsedArgs := mkParsedArgs { has_help : bool; arg_video : String.string }.

Record MouseEvent := mkMouseEvent { me_event : Z; me_x : Z; me_y : Z }.

(** One call of [cv::waitKey]: the mouse events the window delivers to the
    callback while it waits, then the key code it returns. *)
Record Wait := mkWait { w_mouse : list MouseEvent; w_key : Z }.

(** ** Program state *)

(** The globals of lines 18-20. *)
Record Globals := mkGlobals {
  frame : Mat; roi_points : list Point; input_mode : bool }.

Definition globals_init : Globals := mkGlobals [] [] false.

(** The globals together with the locals of [main] that live across
    iterations. *)
Record MainState := mkMainState {
  globals : Globals; roi_box : Rect; roi_hist : Hist }.

Definition main_init : MainState := mkMainState globals_init Rect_default [].

Inductive Status := Exited | Pending | Aborted.

(** How a call of [frame_roi] ends: it returns; it is still inside
    [waitKey(0)] when the input ends; the sub-image of line 87 does not
    lie inside the frame and the library raises; the sub-image is empty
    and the colour conversion of line 88 raises. *)
Inductive Outcome (A : Type) :=
| Returned (a : A)
| Blocked
| Raised
| RaisedEmpty.
Arguments Returned {A} a.
Arguments Blocked {A}.
Arguments Raised {A}.
Arguments RaisedEmpty {A}.

Inductive Step :=
| Continue (s : MainState) (ws : list Wait)
| Stop (st : Status) (s : MainState).

Section Program.

Variable cv : OpenCV.

(** [get_arguments] (lines 22-31); [video_path] is the reference
    parameter. *)
Definition get_arguments (parser : ParsedArgs) (video_path : String.string)
  : String.string * list Event :=
  if has_help parser
  then (video_path, [EvPrintMessage])
  else (arg_video parser, []).

(** [select_roi] (lines 33-47), the mouse callback. *)
Definition select_roi (event x y : Z) (g : Globals) : Globals * list Event :=
  if input_mode g && (event =? EVENT_LBUTTONDOWN)
     && (length (roi_points g) <? 4)%nat
  then
    let frame' := circle cv (frame g) (mkPoint x y) 4 green 2 in
    (mkGlobals frame' (roi_points g ++ [mkPoint x y]) (input_mode g),
     [EvImshow frame'])
  else (g, []).

(** The callbacks run during one [waitKey]. *)
Fixpoint dispatch (evs : list MouseEvent) (g : Globals) : Globals * list Event :=
  match evs with
  | [] => (g, [])
  | e :: evs' =>
      let '(g1, t1) := select_roi (me_event e) (me_x e) (me_y e) g in
      let '(g2, t2) := dispatch evs' g1 in
      (g2, t1 ++ t2)
  end.

(** The loop of lines 60-64: show the frame and wait for a key until four
    points are recorded.  The size is tested only when [waitKey(0)] has
    returned.  When no returned wait is left, the program is inside
    [waitKey(0)]: the pending mouse events still reach the callback, but
    the loop is not left ([false]), however many points there are. *)
Fixpoint await_points (g : Globals) (ws : list Wait) (pending : list MouseEvent)
  : bool * Globals * list Wait * list Event :=
  if (length (roi_points g) <? 4)%nat then
    match ws with
    | [] =>
        let '(g1, t1) := dispatch pending g in
        (false, g1, [], EvImshow (frame g) :: t1)
    | w :: ws' =>
        let '(g1, t1) := dispatch (w_mouse w) g in
        let '(done, g2, ws2, t2) := await_points g1 ws' pending in
        (done, g2, ws2, EvImshow (frame g) :: t1 ++ t2)
    end
  else (true, g, ws, []).

(** [cv::cvtColor] on a source that may be empty: the library refuses an
    empty source and raises ([None]). *)
Definition cvtColor_checked (src : Mat) (code : Z) : option Mat :=
  if mat_empty src then None else Some (cvtColor cv src code).

(** Lines 88-96: the normalised hue histogram of the sub-image. *)
Definition hsv_histogram (roi : Mat) : option Hist :=
  match cvtColor_checked roi COLOR_BGR2HSV with
  | None => None
  | Some roi' =>
      let histSize := 16 in
      let hist := calcHist cv roi' histSize 0 180 in
      Some (normalize cv hist 0 255 NORM_MINMAX)
  end.

(** Lines 86-96: the histogram of a sub-image of [orig_frame]; [None] when
    either library call raises. *)
Definition roi_histogram (orig_frame : Mat) (box : Rect) : option Hist :=
  match submat orig_frame box with
  | None => None
  | Some roi => hsv_histogram roi
  end.

(** [frame_roi] (lines 49-99). *)
Definition frame_roi (g : Globals) (ws : list Wait) (pending : list MouseEvent)
  : Outcome (Hist * Rect) * Globals * list Wait * list Event :=
  let g0 := mkGlobals (frame g) (roi_points g) true in
  let orig_frame := frame g0 in
  let '(done, g1, ws1, t) := await_points g0 ws pending in
  if negb done then (Blocked, g1, ws1, t)
  else
    let box := compute_roi_box (roi_points g1) in
    match submat orig_frame box with
    | None => (Raised, g1, ws1, t)
    | Some roi =>
        match hsv_histogram roi with
        | None => (RaisedEmpty, g1, ws1, t)
        | Some hist => (Returned (hist, box), g1, ws1, t)
        end
    end.

(** [apply_camshift] (lines 101-120).  The box is a [const] reference and
    the function returns nothing: only the global frame changes.  Its one
    call site is behind the emptiness test of line 150, so the frame it
    converts is not empty. *)
Definition apply_camshift (box : Rect) (termination : TermCriteria)
  (hist : Hist) (g : Globals) : Globals * list Event :=
  let hsv := cvtColor cv (frame g) COLOR_BGR2HSV in
  let back_projection := calcBackProject cv hsv hist in
  let r := fst (CamShift cv back_projection box termination) in
  let points := boxPoints cv r in
  (mkGlobals (polylines cv (frame g) points green 2) (roi_points g) (input_mode g),
   [EvCamShift back_projection box termination]).

(** Line 142. *)
Definition termination : TermCriteria :=
  mkTermCriteria (Z.lor TermCriteria_EPS TermCriteria_COUNT) 10 1.

(** The guard of line 164. *)
Definition selection_guard (key : Z) (g : Globals) : bool :=
  (key =? char_i) && (length (roi_points g) <? 4)%nat.

(** One round of the main loop (lines 149-173) on the frame [f] the
    camera delivers. *)
Definition loop_body (s : MainState) (f : Mat) (ws : list Wait)
  (pending : list MouseEvent) : Step * list Event :=
  let g0 := mkGlobals f (roi_points (globals s)) (input_mode (globals s)) in
  if mat_empty f then (Stop Exited (mkMainState g0 (roi_box s) (roi_hist s)), [])
  else
    let '(g1, t1) :=
      if negb (rect_empty (roi_box s))
      then apply_camshift (roi_box s) termination (roi_hist s) g0
      else (g0, []) in
    let t2 := t1 ++ [EvImshow (frame g1)] in
    match ws with
    | [] =>
        let '(g2, t3) := dispatch pending g1 in
        (Stop Pending (mkMainState g2 (roi_box s) (roi_hist s)), t2 ++ t3)
    | w :: ws' =>
        let '(g2, t3) := dispatch (w_mouse w) g1 in
        let key := to_char (w_key w) in
        if selection_guard key g2 then
          match frame_roi g2 ws' pending with
          | (Returned (hist, box), g3, ws3, t4) =>
              (Continue (mkMainState g3 box hist) ws3, t2 ++ t3 ++ t4)
          | (Blocked, g3, _, t4) =>
              (Stop Pending (mkMainState g3 (roi_box s) (roi_hist s)), t2 ++ t3 ++ t4)
          | (Raised, g3, _, t4) =>
              (Stop Aborted (mkMainState g3 (roi_box s) (roi_hist s)), t2 ++ t3 ++ t4)
          | (RaisedEmpty, g3, _, t4) =>
              (Stop Aborted (mkMainState g3 (roi_box s) (roi_hist s)), t2 ++ t3 ++ t4)
          end
        else if key =? char_q then
          (Stop Exited (mkMainState g2 (roi_box s) (roi_hist s)), t2 ++ t3)
        else
          (Continue (mkMainState g2 (roi_box s) (roi_hist s)) ws', t2 ++ t3)
    end.

(** The [while (true)] of line 147, one frame per round. *)
Fixpoint main_loop (s : MainState) (frames : list Mat) (ws : list Wait)
  (pending : list MouseEvent) : Status * MainState * list Event :=
  match frames with
  | [] => (Pending, s, [])
  | f :: frames' =>
      match loop_body s f ws pending with
      | (Continue s1 ws1, t1) =>
          let '(st, s2, t2) := main_loop s1 frames' ws1 pending in
          (st, s2, t1 ++ t2)
      | (Stop st s1, t1) => (st, s1, t1)
      end
  end.

(** [main] (lines 122-179): the exit code, when the process gets to
    return one, and everything it did. *)
Definition main (parser : ParsedArgs) (frames : list Mat) (ws : list Wait)
  (pending : list MouseEvent) : option Z * MainState * list Event :=
  let '(video_path, t0) := get_arguments parser String.EmptyString in
  let t1 :=
    if String.eqb video_path String.EmptyString
    then [EvOpenDevice 0]
    else [EvOpenFile video_path] in
  let '(st, s, t2) := main_loop main_init frames ws pending in
  match st with
  | Exited => (Some 0, s, t0 ++ t1 ++ t2 ++ [EvRelease; EvDestroyAllWindows])
  | _ => (None, s, t0 ++ t1 ++ t2)
  end.

End Program.

(** The state a round of the loop leaves behind. *)
Definition step_state (st : Step) : MainState :=
  match st with
  | Continue s _ => s
  | Stop _ s => s
  end.

(** The state of [main] once the camera has delivered [f]. *)
Definition with_frame (s : MainState) (f : Mat) : MainState :=
  mkMainState (mkGlobals f (roi_points (globals s)) (input_mode (globals s)))
              (roi_box s) (roi_hist s).

(** The same library with another way of drawing the click marker. *)
Definition with_circle (cv : OpenCV)
  (mark : Mat -> Point -> Z -> Scalar -> Z -> Mat) : OpenCV :=
  mkOpenCV mark (cvtColor cv) (calcHist cv) (normalize cv)
           (calcBackProject cv) (CamShift cv) (boxPoints cv) (polylines cv).

(** The call [apply_camshift] makes on the frame [f]. *)
Definition camshift_call_on (cv : OpenCV) (s : MainState) (f : Mat)
  : Mat * Rect * TermCriteria :=
  (calcBackProject cv (cvtColor cv f COLOR_BGR2HSV) (roi_hist s),
   roi_box s, termination).

(** A box that passes the test of line 155 comes from a finished
    selection. *)
Definition box_from_selection (s : MainState) : Prop :=
  rect_empty (roi_box s) = true \/ (4 <= length (roi_points (globals s)))%nat.

(** Two states agree on what the selection reads. *)
Definition same_selection (g g' : Globals) : Prop :=
  roi_points g = roi_points g' /\ input_mode g = input_mode g'.

(** ** Reading a trace *)

(** The calls of the tracking primitive, oldest first, with the arguments
    they were given. *)
Definition camshift_calls (t : list Event) : list (Mat * Rect * TermCriteria) :=
  flat_map (fun e =>
    match e with
    | EvCamShift prob window criteria => [(prob, window, criteria)]
    | _ => []
    end) t.

Definition camshift_windows (t : list Event) : list Rect :=
  map (fun c => snd (fst c)) (camshift_calls t).

(** ** Properties as the specification words them *)

(** The box's corners are two of the selected points, the top-left one of
    least coordinate sum and the bottom-right one of greatest. *)
Definition corners_are_extreme_points (pts : list Point) (box : Rect) : Prop :=
  exists p q,
    In p pts /\ In q pts /\
    (forall r, In r pts -> px p + py p <= px r + py r) /\
    (forall r, In r pts -> px r + py r <= px q + py q) /\
    rect_tl box = p /\ rect_br box = q.

(** A selection completes although its box is empty. *)
Definition completes_with_empty_box (cv : OpenCV) (g : Globals)
  (ws : list Wait) (pending : list MouseEvent) : Prop :=
  exists hist box g' ws' t,
    frame_roi cv g ws pending = (Returned (hist, box), g', ws', t) /\
    rect_empty box = true.

(** Each search after the first starts from the window the search before
    it ended with. *)
Fixpoint seeds_carry_forward (cv : OpenCV)
  (calls : list (Mat * Rect * TermCriteria)) : Prop :=
  match calls with
  | [] => True
  | (prob, window, criteria) :: rest =>
      match rest with
      | [] => True
      | (_, window', _) :: _ =>
          window' = snd (CamShift cv prob window criteria) /\
          seeds_carry_forward cv rest
      end
  end.

(** ** Invariants of the corner search *)

(** What the loop knows about the least sum after the points [l]. *)
Definition min_side (l : list Point) (c : Corners) : Prop :=
  match l with
  | [] => min_sum c = INT_MAX /\ top_left c = Point_default
  | _ :: _ =>
      In (top_left c) l /\ min_sum c = point_sum (top_left c) /\
      forall r, In r l -> min_sum c <= point_sum r
  end.

(** The same for the greatest sum, which starts from [0] and not from the
    least [int]. *)
Definition max_side (l : list Point) (c : Corners) : Prop :=
  (forall r, In r l -> point_sum r <= max_sum c) /\
  ((max_sum c = 0 /\ bottom_right c = Point_default) \/
   (In (bottom_right c) l /\ max_sum c = point_sum (bottom_right c))).

(** ** A small executable instance of the interface

    The theorems below hold for every [OpenCV]; this instance is only what
    the model is run with on concrete inputs.  Histogram and
    normalisation follow the library's documentation in exact rational
    arithmetic; drawing marks single pixels; [CamShift] moves the window one
    pixel right and down. *)
Module Sample.

Fixpoint update_nth {A : Type} (n : nat) (f : A -> A) (l : list A) : list A :=
  match l, n with
  | [], _ => []
  | a :: l', O => f a :: l'
  | a :: l', S n' => a :: update_nth n' f l'
  end.

Definition set_pixel (m : Mat) (p : Point) (c : Scalar) : Mat :=
  if (0 <=? px p) && (0 <=? py p)
  then update_nth (Z.to_nat (py p)) (update_nth (Z.to_nat (px p)) (fun _ => c)) m
  else m.

Definition hue (p : Pixel) : Z := fst (fst p).

(** The bin a value falls into, for [histSize] uniform bins over
    [[lo, hi)]; values outside the range are not counted. *)
Definition bin_of (histSize : Z) (lo hi : Q) (v : Z) : option Z :=
  if Qle_bool lo (inject_Z v) && negb (Qle_bool hi (inject_Z v))
  then Some (Qfloor ((inject_Z v - lo) * inject_Z histSize / (hi - lo))%Q)
  else None.

Definition in_bin (histSize : Z) (lo hi : Q) (i : Z) (p : Pixel) : bool :=
  match bin_of histSize lo hi (hue p) with
  | Some b => b =? i
  | None => false
  end.

Definition calcHist (img : Mat) (histSize : Z) (lo hi : Q) : Hist :=
  map (fun i =>
         inject_Z (Z.of_nat (length
           (filter (in_bin histSize lo hi (Z.of_nat i)) (concat img)))))
      (seq 0 (Z.to_nat histSize)).

Definition qmin (a b : Q) : Q := if Qle_bool a b then a else b.
Definition qmax (a b : Q) : Q := if Qle_bool a b then b else a.

Definition hist_min (h : Hist) : Q :=
  match h with
  | [] => 0%Q
  | v :: h' => fold_left qmin h' v
  end.

Definition hist_max (h : Hist) : Q :=
  match h with
  | [] => 0%Q
  | v :: h' => fold_left qmax h' v
  end.

(** [NORM_MINMAX]: the affine map that sends the smallest value to the
    lower bound and the largest to the upper bound; a constant input goes
    to the lower bound. *)
Definition normalize (h : Hist) (a b : Q) (norm_type : Z) : Hist :=
  if norm_type =? NORM_MINMAX then
    let smin := hist_min h in
    let smax := hist_max h in
    let dmin := qmin a b in
    let dmax := qmax a b in
    let scale :=
      if Qle_bool smax smin then 0%Q else ((dmax - dmin) / (smax - smin))%Q in
    let shift := (dmin - smin * scale)%Q in
    map (fun v => (v * scale + shift)%Q) h
  else h.

Definition calcBackProject (hsv : Mat) (hist : Hist) : Mat :=
  map (map (fun p =>
    match bin_of (Z.of_nat (length hist)) 0 180 (hue p) with
    | Some b => (Qfloor (nth (Z.to_nat b) hist 0%Q), 0, 0)
    | None => (0, 0, 0)
    end)) hsv.

Definition CamShift (probImage : Mat) (window : Rect) (criteria : TermCriteria)
  : RotatedRect * Rect :=
  let w := mkRect (rx window + 1) (ry window + 1) (rwidth window) (rheight window) in
  (mkRotatedRect
     ((inject_Z (2 * rx w + rwidth w) / 2)%Q, (inject_Z (2 * ry w + rheight w) / 2)%Q)
     (inject_Z (rwidth w), inject_Z (rheight w)) 0,
   w).

Definition boxPoints (r : RotatedRect) : list Point :=
  let cx := fst (rr_center r) in
  let cy := snd (rr_center r) in
  let hw := (fst (rr_size r) / 2)%Q in
  let hh := (snd (rr_size r) / 2)%Q in
  [ mkPoint (Qfloor (cx - hw)%Q) (Qfloor (cy + hh)%Q);
    mkPoint (Qfloor (cx - hw)%Q) (Qfloor (cy - hh)%Q);
    mkPoint (Qfloor (cx + hw)%Q) (Qfloor (cy - hh)%Q);
    mkPoint (Qfloor (cx + hw)%Q) (Qfloor (cy + hh)%Q) ].

Definition cv : OpenCV :=
  mkOpenCV
    (fun m center _ color _ => set_pixel m center color)
    (fun m _ => m)
    calcHist
    normalize
    calcBackProject
    CamShift
    boxPoints
    (fun m pts color _ => fold_left (fun m' p => set_pixel m' p color) pts m).

(** A 6 x 6 image of one colour, and a left click. *)
Definition plain (c : Pixel) : Mat := repeat (repeat c 6%nat) 6%nat.
Definition click (x y : Z) : MouseEvent := mkMouseEvent EVENT_LBUTTONDOWN x y.

(** The frame every sample run is fed, and the program started without
    arguments. *)
Definition f0 : Mat := plain (30, 0, 0).
Definition no_args : ParsedArgs := mkParsedArgs false String.EmptyString.

(** Key [i], then four clicks on the corners of a square. *)
Definition select_square : list Wait :=
  [mkWait [] char_i;
   mkWait [click 1 1; click 1 4] 0;
   mkWait [click 4 1; click 4 4] 0].

(** Key [i], then four clicks on one and the same pixel. *)
Definition select_pixel : list Wait :=
  [mkWait [] char_i;
   mkWait [click 2 2; click 2 2; click 2 2; click 2 2] 0].

(** No key pressed within the delay of [waitKey(1)]. *)
Definition no_key : Wait := mkWait [] (-1).

(** The state of [main] after one frame and the given input. *)
Definition after (ws : list Wait) : MainState :=
  snd (fst (main_loop cv main_init [f0] ws [])).

End Sample.

(** ** Vocabulary for the properties of the whole program *)

(** The left clicks among the mouse events, as points, in the order they
    arrive. *)
Definition is_left_click (e : MouseEvent) : bool :=
  me_event e =? EVENT_LBUTTONDOWN.
Definition click_point (e : MouseEvent) : Point := mkPoint (me_x e) (me_y e).
Definition left_clicks (evs : list MouseEvent) : list Point :=
  map click_point (filter is_left_click evs).

(** All the mouse events of a sequence of waits. *)
Definition all_mouse (ws : list Wait) : list MouseEvent :=
  flat_map w_mouse ws.

(** The marker of line 44. *)
Definition draw_marker (cv : OpenCV) (m : Mat) (p : Point) : Mat :=
  circle cv m p 4 green 2.

(** A point on a pixel of the image. *)
Definition in_frame (m : Mat) (p : Point) : Prop :=
  0 <= px p < mat_cols m /\ 0 <= py p < mat_rows m.

(** What a tracked round shows for the camera frame [f]: the frame with
    the outline of the search result drawn on it. *)
Definition tracked_frame (cv : OpenCV) (box : Rect) (hist : Hist) (f : Mat) : Mat :=
  let back_projection := calcBackProject cv (cvtColor cv f COLOR_BGR2HSV) hist in
  polylines cv f
    (boxPoints cv (fst (CamShift cv back_projection box termination))) green 2.

(** What a tracked round does with the world. *)
Definition tracked_round (cv : OpenCV) (box : Rect) (hist : Hist) (f : Mat)
  : list Event :=
  [EvCamShift (calcBackProject cv (cvtColor cv f COLOR_BGR2HSV) hist)
              box termination;
   EvImshow (tracked_frame cv box hist f)].

(** The state [main] starts in, but for the frame. *)
Definition idle (s : MainState) : Prop :=
  input_mode (globals s) = false /\ roi_points (globals s) = [] /\
  roi_box s = Rect_default /\ roi_hist s = [].

(** Box and histogram are those of four recorded points on one of the
    given camera frames. *)
Definition selected_on (cv : OpenCV) (frames : list Mat) (s : MainState) : Prop :=
  length (roi_points (globals s)) = 4%nat /\
  roi_box s = compute_roi_box (roi_points (globals s)) /\
  exists f, In f frames /\ roi_histogram cv f (roi_box s) = Some (roi_hist s).

Definition is_open (e : Event) : bool :=
  match e with
  | EvOpenDevice _ | EvOpenFile _ => true
  | _ => false
  end.

(** Events of the frame loop: showing an image and searching. *)
Definition is_loop_event (e : Event) : Prop :=
  match e with
  | EvImshow _ | EvCamShift _ _ _ => True
  | _ => False
  end.

(** * Theorems *)

(** ** Integers *)

Lemma int_add_exact (a b : Z) :
  - 2147483648 <= a + b <= INT_MAX -> int_add a b = a + b.
Proof.
  intros H. unfold int_add, wrap_signed, INT_MAX in *.
  change (2 ^ (32 - 1)) with 2147483648.
  change (2 ^ 32) with 4294967296.
  rewrite Z.mod_small by lia. lia.
Qed.

Lemma to_char_ascii (n : Z) : 0 <= n < 128 -> to_char n = n.
Proof.
  intros H. unfold to_char, wrap_signed.
  change (2 ^ (8 - 1)) with 128. change (2 ^ 8) with 256.
  rewrite Z.mod_small by lia. lia.
Qed.

(** ** The corner search *)

Lemma find_corners_snoc (l : list Point) (p : Point) :
  find_corners (l ++ [p]) = corner_step (find_corners l) p.
Proof. unfold find_corners. now rewrite fold_left_app. Qed.

Lemma corner_step_min (c : Corners) (p : Point) :
  let c' := corner_step c p in
  (point_sum p < min_sum c -> min_sum c' = point_sum p /\ top_left c' = p) /\
  (min_sum c <= point_sum p -> min_sum c' = min_sum c /\ top_left c' = top_left c).
Proof.
  unfold corner_step. cbv zeta.
  destruct (point_sum p <? min_sum c) eqn:E1;
    [apply Z.ltb_lt in E1 | apply Z.ltb_ge in E1];
    match goal with |- context [if ?b then _ else _] => destruct b end;
    cbn; split; intros; try lia; auto.
Qed.

Lemma corner_step_max (c : Corners) (p : Point) :
  let c' := corner_step c p in
  (max_sum c < point_sum p -> max_sum c' = point_sum p /\ bottom_right c' = p) /\
  (point_sum p <= max_sum c -> max_sum c' = max_sum c /\ bottom_right c' = bottom_right c).
Proof.
  unfold corner_step. cbv zeta.
  destruct (point_sum p <? min_sum c); cbn [max_sum];
    destruct (point_sum p >? max_sum c) eqn:E2; cbn;
    rewrite Z.gtb_ltb in E2;
    [apply Z.ltb_lt in E2 | apply Z.ltb_ge in E2
    |apply Z.ltb_lt in E2 | apply Z.ltb_ge in E2];
    split; intros; try lia; auto.
Qed.

Lemma find_corners_min_side (l : list Point) :
  (forall r, In r l -> point_sum r < INT_MAX) ->
  min_side l (find_corners l).
Proof.
  induction l as [|p l IH] using rev_ind; intros Hlt.
  - cbn. auto.
  - rewrite find_corners_snoc.
    assert (IH' : min_side l (find_corners l))
      by (apply IH; intros r Hr; apply Hlt, in_or_app; auto).
    assert (Hp : point_sum p < INT_MAX)
      by (apply Hlt, in_or_app; right; left; reflexivity).
    destruct (corner_step_min (find_corners l) p) as [Hnew Hold].
    set (c := find_corners l) in *. set (c' := corner_step c p) in *.
    assert (Hgoal : In (top_left c') (l ++ [p]) /\
                    min_sum c' = point_sum (top_left c') /\
                    forall r, In r (l ++ [p]) -> min_sum c' <= point_sum r).
    { destruct l as [|a l'].
      - destruct IH' as [Hm Ht]. destruct Hnew as [Hs Hq]; [lia|].
        rewrite Hq, Hs. cbn. repeat split; auto.
        intros r [<-|[]]. lia.
      - destruct IH' as (Hin & Hs & Hall).
        destruct (Z_lt_le_dec (point_sum p) (min_sum c)) as [Hl|Hl].
        + destruct Hnew as [Hs' Hq]; [assumption|]. rewrite Hq, Hs'.
          repeat split.
          * apply in_or_app. right. left. reflexivity.
          * intros r Hr. apply in_app_or in Hr. destruct Hr as [Hr|[<-|[]]].
            -- specialize (Hall r Hr). lia.
            -- lia.
        + destruct Hold as [Hs' Hq]; [assumption|]. rewrite Hq, Hs'.
          repeat split.
          * apply in_or_app. left. assumption.
          * assumption.
          * intros r Hr. apply in_app_or in Hr. destruct Hr as [Hr|[<-|[]]].
            -- apply Hall, Hr.
            -- lia. }
    destruct (l ++ [p]) eqn:E; [destruct l; discriminate|]. exact Hgoal.
Qed.

Lemma find_corners_max_side (l : list Point) :
  max_side l (find_corners l).
Proof.
  induction l as [|p l IH] using rev_ind.
  - split; [intros r []|left; auto].
  - rewrite find_corners_snoc.
    destruct (corner_step_max (find_corners l) p) as [Hnew Hold].
    set (c := find_corners l) in *. set (c' := corner_step c p) in *.
    destruct IH as [Hall Hcase].
    destruct (Z_lt_le_dec (max_sum c) (point_sum p)) as [Hl|Hl].
    + destruct Hnew as [Hs Hq]; [assumption|]. split.
      * intros r Hr. apply in_app_or in Hr. destruct Hr as [Hr|[<-|[]]].
        -- specialize (Hall r Hr). lia.
        -- lia.
      * right. rewrite Hq, Hs. split; [|reflexivity].
        apply in_or_app. right. left. reflexivity.
    + destruct Hold as [Hs Hq]; [assumption|]. split.
      * intros r Hr. apply in_app_or in Hr. destruct Hr as [Hr|[<-|[]]].
        -- specialize (Hall r Hr). lia.
        -- lia.
      * rewrite Hq, Hs. destruct Hcase as [Hz|[Hin Hm]]; [left; exact Hz|].
        right. split; [apply in_or_app; left; exact Hin|exact Hm].
Qed.

Lemma find_corners_extremes (pts : list Point) :
  pts <> [] ->
  (forall p, In p pts -> 0 <= px p /\ 0 <= py p /\ px p + py p < INT_MAX) ->
  let c := find_corners pts in
  In (top_left c) pts /\ In (bottom_right c) pts /\
  (forall r, In r pts -> px (top_left c) + py (top_left c) <= px r + py r) /\
  (forall r, In r pts -> px r + py r <= px (bottom_right c) + py (bottom_right c)).
Proof.
  intros Hne Hpts c.
  assert (Hsum : forall r, In r pts -> point_sum r = px r + py r).
  { intros r Hr. destruct (Hpts r Hr) as (? & ? & ?).
    apply int_add_exact. unfold INT_MAX in *. lia. }
  assert (Hmin : min_side pts c).
  { apply find_corners_min_side. intros r Hr. rewrite (Hsum r Hr).
    apply (Hpts r Hr). }
  destruct (find_corners_max_side pts) as [Hall Hcase]. fold c in Hall, Hcase.
  destruct pts as [|a pts']; [congruence|].
  destruct Hmin as (Hin & Hs & Hleast).
  assert (Hbr : In (bottom_right c) (a :: pts') /\
                max_sum c = point_sum (bottom_right c)).
  { destruct Hcase as [[Hz Hd]|Hc]; [|exact Hc].
    assert (Ha : a = Point_default).
    { pose proof (Hall a (or_introl eq_refl)) as H1.
      rewrite Hsum in H1 by (left; reflexivity).
      destruct (Hpts a (or_introl eq_refl)) as (Hx & Hy & _).
      destruct a as [x y]. cbn in *. unfold Point_default.
      f_equal; lia. }
    rewrite Hd, Hz, <- Ha. split; [left; reflexivity|].
    rewrite Ha. reflexivity. }
  destruct Hbr as [Hinq Hq].
  repeat split; try assumption.
  - intros r Hr. rewrite <- (Hsum _ Hin), <- (Hsum r Hr), <- Hs. apply Hleast, Hr.
  - intros r Hr. rewrite <- (Hsum _ Hinq), <- (Hsum r Hr), <- Hq. apply Hall, Hr.
Qed.

Lemma Rect_of_points_ordered (p q : Point) :
  px p <= px q -> py p <= py q ->
  rect_tl (Rect_of_points p q) = p /\ rect_br (Rect_of_points p q) = q.
Proof.
  intros Hx Hy. destruct p as [x1 y1], q as [x2 y2]. cbn in *.
  unfold rect_tl, rect_br, Rect_of_points. cbn.
  rewrite !Z.min_l, !Z.max_r by lia. split; f_equal; lia.
Qed.

Lemma Rect_of_points_corners_back (p q : Point) :
  rect_tl (Rect_of_points p q) = p -> rect_br (Rect_of_points p q) = q ->
  px p <= px q /\ py p <= py q.
Proof.
  destruct p as [x1 y1], q as [x2 y2].
  unfold rect_tl, rect_br, Rect_of_points. cbn.
  intros H1 H2. injection H1 as Hx Hy. lia.
Qed.

Lemma Rect_of_points_corners (p q : Point) :
  rect_tl (Rect_of_points p q) = mkPoint (Z.min (px p) (px q)) (Z.min (py p) (py q)) /\
  rect_br (Rect_of_points p q) = mkPoint (Z.max (px p) (px q)) (Z.max (py p) (py q)).
Proof.
  unfold rect_tl, rect_br, Rect_of_points. cbn. split; f_equal; lia.
Qed.

(** C1, as the code has it: for four clicked points with non-negative
    coordinates whose sums stay below [INT_MAX], the ROI box is the
    rectangle spanned by a point [p] of least coordinate sum and a point
    [q] of greatest coordinate sum among the four.  Its top-left corner
    takes the smaller and its bottom-right corner the larger of the two
    points' coordinates; the corners are [p] and [q] themselves exactly
    when [q] lies to the right of and below [p]. *)
Theorem roi_box_spans_extreme_points (pts : list Point) :
  length pts = 4%nat ->
  (forall p, In p pts -> 0 <= px p /\ 0 <= py p /\ px p + py p < INT_MAX) ->
  exists p q,
    In p pts /\ In q pts /\
    (forall r, In r pts -> px p + py p <= px r + py r) /\
    (forall r, In r pts -> px r + py r <= px q + py q) /\
    compute_roi_box pts = Rect_of_points p q /\
    rect_tl (compute_roi_box pts)
      = mkPoint (Z.min (px p) (px q)) (Z.min (py p) (py q)) /\
    rect_br (compute_roi_box pts)
      = mkPoint (Z.max (px p) (px q)) (Z.max (py p) (py q)) /\
    (px p <= px q /\ py p <= py q <->
     rect_tl (compute_roi_box pts) = p /\ rect_br (compute_roi_box pts) = q).
Proof.
  intros Hlen Hpts.
  assert (Hne : pts <> []) by (destruct pts; [discriminate|congruence]).
  destruct (find_corners_extremes pts Hne Hpts) as (Hp & Hq & Hmin & Hmax).
  exists (top_left (find_corners pts)), (bottom_right (find_corners pts)).
  unfold compute_roi_box.
  destruct (Rect_of_points_corners (top_left (find_corners pts))
              (bottom_right (find_corners pts))) as [Htl Hbr].
  do 6 (split; [assumption || reflexivity|]). split; [assumption|]. split.
  - intros [Hx Hy]. apply Rect_of_points_ordered; assumption.
  - intros [H1 H2]. apply Rect_of_points_corners_back; assumption.
Qed.

(** The scenario of the specification: the four corners of a square. *)
Lemma roi_box_spans_extreme_points_witness :
  let pts := [mkPoint 10 10; mkPoint 10 50; mkPoint 50 10; mkPoint 50 50] in
  rect_tl (compute_roi_box pts) = mkPoint 10 10 /\
  rect_br (compute_roi_box pts) = mkPoint 50 50.
Proof.
  cbv zeta.
  destruct (roi_box_spans_extreme_points
              [mkPoint 10 10; mkPoint 10 50; mkPoint 50 10; mkPoint 50 50])
    as (p & q & Hp & Hq & Hmin & Hmax & _ & _ & _ & Hord).
  - reflexivity.
  - intros p [<-|[<-|[<-|[<-|[]]]]]; cbn; unfold INT_MAX; lia.
  - assert (Ep : p = mkPoint 10 10).
    { pose proof (Hmin (mkPoint 10 10) (or_introl eq_refl)) as H.
      destruct Hp as [<-|[<-|[<-|[<-|[]]]]]; cbn in H; try reflexivity; lia. }
    assert (Eq : q = mkPoint 50 50).
    { pose proof (Hmax (mkPoint 50 50)
                    (or_intror (or_intror (or_intror (or_introl eq_refl))))) as H.
      destruct Hq as [<-|[<-|[<-|[<-|[]]]]]; cbn in H; try reflexivity; lia. }
    subst p q. apply (proj1 Hord). cbn. lia.
Defined.

(** C1 as worded fails.  Four clicks around a slanted quadrilateral: the point of least sum is
    (10,30), the point of greatest sum (60,20) lies above it, and the box
    the program builds has the corners (10,20) and (60,30), neither of
    which was clicked. *)
Lemma roi_box_corners_not_clicked :
  let pts := [mkPoint 10 30; mkPoint 40 5; mkPoint 60 20; mkPoint 35 45] in
  length pts = 4%nat /\
  compute_roi_box pts = mkRect 10 20 50 10 /\
  ~ corners_are_extreme_points pts (compute_roi_box pts).
Proof.
  cbv zeta. split; [reflexivity|]. split; [reflexivity|].
  intros (p & q & Hp & _ & _ & _ & Htl & _).
  change (rect_tl (compute_roi_box
            [mkPoint 10 30; mkPoint 40 5; mkPoint 60 20; mkPoint 35 45]))
    with (mkPoint 10 20) in Htl.
  subst p. destruct Hp as [H|[H|[H|[H|[]]]]]; discriminate H.
Qed.

(** ** The mouse callback *)

Section Callback.

Variable cv : OpenCV.

Lemma select_roi_full (event x y : Z) (g : Globals) :
  (4 <= length (roi_points g))%nat -> select_roi cv event x y g = (g, []).
Proof.
  intros H. unfold select_roi.
  replace (length (roi_points g) <? 4)%nat with false
    by (symmetry; apply Nat.ltb_ge; exact H).
  now rewrite andb_false_r.
Qed.

Lemma select_roi_mode (event x y : Z) (g : Globals) :
  input_mode (fst (select_roi cv event x y g)) = input_mode g.
Proof. unfold select_roi. now destruct (_ && _). Qed.

Lemma select_roi_idle (event x y : Z) (g : Globals) :
  input_mode g = false -> select_roi cv event x y g = (g, []).
Proof. intros H. unfold select_roi. now rewrite H. Qed.

Lemma select_roi_length (event x y : Z) (g : Globals) :
  (length (roi_points g) <= 4)%nat ->
  (length (roi_points (fst (select_roi cv event x y g))) <= 4)%nat.
Proof.
  intros H. unfold select_roi.
  destruct (length (roi_points g) <? 4)%nat eqn:E.
  - apply Nat.ltb_lt in E.
    destruct (input_mode g && (event =? EVENT_LBUTTONDOWN));
      cbn [andb fst roi_points]; [|exact H].
    rewrite length_app. cbn [length]. lia.
  - rewrite andb_false_r. exact H.
Qed.

Lemma dispatch_full (evs : list MouseEvent) (g : Globals) :
  (4 <= length (roi_points g))%nat -> dispatch cv evs g = (g, []).
Proof.
  intros H. induction evs as [|e evs IH]; cbn; [reflexivity|].
  now rewrite select_roi_full, IH.
Qed.

Lemma dispatch_idle (evs : list MouseEvent) (g : Globals) :
  input_mode g = false -> dispatch cv evs g = (g, []).
Proof.
  intros H. induction evs as [|e evs IH]; cbn; [reflexivity|].
  now rewrite select_roi_idle, IH.
Qed.

Lemma dispatch_length (evs : list MouseEvent) (g : Globals) :
  (length (roi_points g) <= 4)%nat ->
  (length (roi_points (fst (dispatch cv evs g))) <= 4)%nat.
Proof.
  revert g. induction evs as [|e evs IH]; intros g H; cbn; [exact H|].
  pose proof (select_roi_length (me_event e) (me_x e) (me_y e) g H) as H1.
  destruct (select_roi cv (me_event e) (me_x e) (me_y e) g) as [g1 t1].
  specialize (IH g1 H1). destruct (dispatch cv evs g1) as [g2 t2]. exact IH.
Qed.

Lemma dispatch_mode (evs : list MouseEvent) (g : Globals) :
  input_mode (fst (dispatch cv evs g)) = input_mode g.
Proof.
  revert g. induction evs as [|e evs IH]; intros g; cbn; [reflexivity|].
  pose proof (select_roi_mode (me_event e) (me_x e) (me_y e) g) as H1.
  destruct (select_roi cv (me_event e) (me_x e) (me_y e) g) as [g1 t1].
  specialize (IH g1). destruct (dispatch cv evs g1) as [g2 t2].
  cbn in *. congruence.
Qed.

(** C6: while the selection is open, whatever the window delivers, the
    list of ROI points never grows beyond four entries, and a click that
    arrives when four are recorded changes nothing: no fifth point, no
    marker, no redraw. *)
Theorem roi_points_at_most_four (evs : list MouseEvent) (g : Globals) :
  input_mode g = true ->
  (length (roi_points g) <= 4)%nat ->
  (length (roi_points (fst (dispatch cv evs g))) <= 4)%nat /\
  (length (roi_points g) = 4%nat ->
   forall x y, select_roi cv EVENT_LBUTTONDOWN x y g = (g, []) /\
               dispatch cv evs g = (g, [])).
Proof.
  intros _ Hle. split.
  - apply dispatch_length, Hle.
  - intros H4 x y. split.
    + apply select_roi_full. lia.
    + apply dispatch_full. lia.
Qed.

End Callback.

(** Six clicks in a row: the first four are recorded, the last two are
    dropped. *)
Lemma roi_points_at_most_four_witness :
  let g := mkGlobals (Sample.plain (30, 0, 0)) [] true in
  let evs := map (fun n => Sample.click n n) [0; 1; 2; 3; 4; 5] in
  roi_points (fst (dispatch Sample.cv evs g))
    = [mkPoint 0 0; mkPoint 1 1; mkPoint 2 2; mkPoint 3 3] /\
  (length (roi_points (fst (dispatch Sample.cv evs g))) <= 4)%nat.
Proof.
  cbv zeta. split; [reflexivity|].
  apply (roi_points_at_most_four Sample.cv
           (map (fun n => Sample.click n n) [0; 1; 2; 3; 4; 5])
           (mkGlobals (Sample.plain (30, 0, 0)) [] true)).
  - reflexivity.
  - cbn. lia.
Defined.

(** ** The selection routine *)

Section Selection.

Variable cv : OpenCV.
Variable pending : list MouseEvent.

Lemma camshift_calls_app (t1 t2 : list Event) :
  camshift_calls (t1 ++ t2) = camshift_calls t1 ++ camshift_calls t2.
Proof. unfold camshift_calls. apply flat_map_app. Qed.

Lemma camshift_calls_imshow (img : Mat) (t : list Event) :
  camshift_calls (EvImshow img :: t) = camshift_calls t.
Proof. reflexivity. Qed.

Lemma select_roi_no_calls (event x y : Z) (g : Globals) :
  camshift_calls (snd (select_roi cv event x y g)) = [].
Proof. unfold select_roi. now destruct (_ && _). Qed.

Lemma dispatch_no_calls (evs : list MouseEvent) (g : Globals) :
  camshift_calls (snd (dispatch cv evs g)) = [].
Proof.
  revert g. induction evs as [|e evs IH]; intros g; cbn; [reflexivity|].
  pose proof (select_roi_no_calls (me_event e) (me_x e) (me_y e) g) as H1.
  destruct (select_roi cv (me_event e) (me_x e) (me_y e) g) as [g1 t1].
  specialize (IH g1). destruct (dispatch cv evs g1) as [g2 t2].
  cbn [snd fst] in *. now rewrite camshift_calls_app, H1, IH.
Qed.

Lemma await_points_full (g : Globals) (ws : list Wait) :
  (4 <= length (roi_points g))%nat ->
  await_points cv g ws pending = (true, g, ws, []).
Proof.
  intros H. apply Nat.ltb_ge in H. destruct ws; cbn [await_points]; now rewrite H.
Qed.

Lemma await_points_no_calls (ws : list Wait) (g : Globals) :
  camshift_calls (snd (await_points cv g ws pending)) = [].
Proof.
  revert g. induction ws as [|w ws IH]; intros g; cbn [await_points];
    destruct (length (roi_points g) <? 4)%nat; try reflexivity.
  - pose proof (dispatch_no_calls pending g) as H1.
    destruct (dispatch cv pending g) as [g1 t1]. exact H1.
  - pose proof (dispatch_no_calls (w_mouse w) g) as H1.
    destruct (dispatch cv (w_mouse w) g) as [g1 t1].
    specialize (IH g1).
    destruct (await_points cv g1 ws pending) as [[[done g2] ws2] t2].
    cbn [snd fst] in *.
    now rewrite camshift_calls_imshow, camshift_calls_app, H1, IH.
Qed.

Lemma await_points_length (ws : list Wait) (g : Globals) :
  (length (roi_points g) <= 4)%nat ->
  (length (roi_points (snd (fst (fst (await_points cv g ws pending))))) <= 4)%nat.
Proof.
  revert g. induction ws as [|w ws IH]; intros g H; cbn [await_points];
    destruct (length (roi_points g) <? 4)%nat; try exact H.
  - pose proof (dispatch_length cv pending g H) as H1.
    destruct (dispatch cv pending g) as [g1 t1]. exact H1.
  - pose proof (dispatch_length cv (w_mouse w) g H) as H1.
    destruct (dispatch cv (w_mouse w) g) as [g1 t1].
    specialize (IH g1 H1).
    destruct (await_points cv g1 ws pending) as [[[done g2] ws2] t2].
    exact IH.
Qed.

Lemma await_points_mode (ws : list Wait) (g : Globals) :
  input_mode (snd (fst (fst (await_points cv g ws pending)))) = input_mode g.
Proof.
  revert g. induction ws as [|w ws IH]; intros g; cbn [await_points];
    destruct (length (roi_points g) <? 4)%nat; try reflexivity.
  - pose proof (dispatch_mode cv pending g) as H1.
    destruct (dispatch cv pending g) as [g1 t1]. exact H1.
  - pose proof (dispatch_mode cv (w_mouse w) g) as H1.
    destruct (dispatch cv (w_mouse w) g) as [g1 t1].
    specialize (IH g1).
    destruct (await_points cv g1 ws pending) as [[[done g2] ws2] t2].
    cbn [fst snd] in *. congruence.
Qed.

(** The loop is left only on its own test, with four points. *)
Lemma await_points_left (ws : list Wait) (g : Globals) :
  fst (fst (fst (await_points cv g ws pending))) = true ->
  (4 <= length (roi_points (snd (fst (fst (await_points cv g ws pending))))))%nat.
Proof.
  revert g. induction ws as [|w ws IH]; intros g; cbn [await_points];
    destruct (length (roi_points g) <? 4)%nat eqn:E;
    try (intros _; apply Nat.ltb_ge in E; exact E).
  - destruct (dispatch cv pending g) as [g1 t1]. discriminate.
  - destruct (dispatch cv (w_mouse w) g) as [g1 t1].
    specialize (IH g1).
    destruct (await_points cv g1 ws pending) as [[[done g2] ws2] t2].
    exact IH.
Qed.

(** State, remaining input and redraws of [frame_roi] are those of its
    wait loop; it is blocked exactly when the loop was not left. *)
Lemma frame_roi_loop (g : Globals) (ws : list Wait) :
  let r := await_points cv (mkGlobals (frame g) (roi_points g) true) ws pending in
  snd (fst (fst (frame_roi cv g ws pending))) = snd (fst (fst r)) /\
  snd (fst (frame_roi cv g ws pending)) = snd (fst r) /\
  snd (frame_roi cv g ws pending) = snd r /\
  (fst (fst (fst (frame_roi cv g ws pending))) = Blocked
   <-> fst (fst (fst r)) = false).
Proof.
  cbv zeta. unfold frame_roi. cbn [frame].
  destruct (await_points cv _ ws pending) as [[[done g1] ws1] t1].
  destruct done; cbn [negb fst snd].
  - destruct (submat (frame g) (compute_roi_box (roi_points g1))) as [roi|];
      [destruct (hsv_histogram cv roi)|]; cbn [fst snd];
      repeat split; try discriminate.
  - repeat split; reflexivity.
Qed.

(** What [frame_roi] hands back when it returns. *)
Lemma frame_roi_returned (g : Globals) (ws : list Wait)
  (hist : Hist) (box : Rect) (g' : Globals) (ws' : list Wait) (t : list Event) :
  frame_roi cv g ws pending = (Returned (hist, box), g', ws', t) ->
  (4 <= length (roi_points g'))%nat /\
  input_mode g' = true /\
  box = compute_roi_box (roi_points g') /\
  roi_histogram cv (frame g) box = Some hist /\
  camshift_calls t = [].
Proof.
  unfold frame_roi, roi_histogram. cbn [frame].
  pose proof (await_points_no_calls ws
                (mkGlobals (frame g) (roi_points g) true)) as Hc.
  pose proof (await_points_mode ws
                (mkGlobals (frame g) (roi_points g) true)) as Hm.
  pose proof (await_points_left ws
                (mkGlobals (frame g) (roi_points g) true)) as Hl.
  destruct (await_points cv _ ws pending) as [[[done g1] ws1] t1].
  cbn [snd fst input_mode] in Hc, Hm, Hl.
  destruct done; cbn [negb]; [|discriminate].
  destruct (submat (frame g) (compute_roi_box (roi_points g1))) as [roi|] eqn:Es;
    [|discriminate].
  destruct (hsv_histogram cv roi) as [h|] eqn:Eh; [|discriminate].
  intros H. injection H as <- <- <- <- <-. rewrite Es. auto.
Qed.

Lemma frame_roi_no_calls (g : Globals) (ws : list Wait) :
  camshift_calls (snd (frame_roi cv g ws pending)) = [].
Proof.
  destruct (frame_roi_loop g ws) as (_ & _ & -> & _).
  apply await_points_no_calls.
Qed.

Lemma frame_roi_length (g : Globals) (ws : list Wait) :
  (length (roi_points g) <= 4)%nat ->
  (length (roi_points (snd (fst (fst (frame_roi cv g ws pending))))) <= 4)%nat.
Proof.
  intros H. destruct (frame_roi_loop g ws) as (-> & _).
  apply await_points_length. exact H.
Qed.

(** A selection entered with fewer than four points returns with exactly
    four. *)
Lemma frame_roi_returns_four (g : Globals) (ws : list Wait)
  (hist : Hist) (box : Rect) (g' : Globals) (ws' : list Wait) (t : list Event) :
  (length (roi_points g) < 4)%nat ->
  frame_roi cv g ws pending = (Returned (hist, box), g', ws', t) ->
  length (roi_points g') = 4%nat.
Proof.
  intros Hlt H.
  pose proof (frame_roi_length g ws) as Hle. rewrite H in Hle.
  cbn [fst snd] in Hle.
  destruct (frame_roi_returned g ws hist box g' ws' t H) as (Hge & _).
  lia.
Qed.

(** A non-empty sub-image comes from a box of non-zero area. *)
Lemma submat_not_empty (m : Mat) (box : Rect) (roi : Mat) :
  submat m box = Some roi -> mat_empty roi = false -> rect_empty box = false.
Proof.
  unfold submat. destruct (_ && _); [|discriminate].
  intros H. injection H as <-. unfold mat_empty, mat_rows, mat_cols, rect_empty.
  intros He. apply orb_false_iff in He. destruct He as [Hr Hc].
  apply Z.eqb_neq in Hr, Hc. apply orb_false_iff.
  split; apply Z.leb_gt.
  - destruct (Z_lt_le_dec 0 (rwidth box)) as [H|H]; [exact H|exfalso].
    apply Hc. replace (Z.to_nat (rwidth box)) with 0%nat by lia.
    destruct (firstn _ _); reflexivity.
  - destruct (Z_lt_le_dec 0 (rheight box)) as [H|H]; [exact H|exfalso].
    apply Hr. replace (Z.to_nat (rheight box)) with 0%nat by lia.
    reflexivity.
Qed.

(** A selection that returns has found a box of non-zero area. *)
Lemma frame_roi_returned_box (g : Globals) (ws : list Wait)
  (hist : Hist) (box : Rect) (g' : Globals) (ws' : list Wait) (t : list Event) :
  frame_roi cv g ws pending = (Returned (hist, box), g', ws', t) ->
  rect_empty box = false.
Proof.
  intros H. destruct (frame_roi_returned g ws hist box g' ws' t H)
    as (_ & _ & _ & Hh & _).
  unfold roi_histogram in Hh.
  destruct (submat (frame g) box) as [roi|] eqn:Es; [|discriminate].
  unfold hsv_histogram, cvtColor_checked in Hh.
  destruct (mat_empty roi) eqn:Ee; [discriminate|].
  exact (submat_not_empty _ _ _ Es Ee).
Qed.

End Selection.

(** ** One round of the main loop *)

Section Loop.

Variable cv : OpenCV.
Variable pending : list MouseEvent.

Lemma loop_body_empty_frame (s : MainState) (f : Mat) (ws : list Wait) :
  mat_empty f = true ->
  loop_body cv s f ws pending = (Stop Exited (with_frame s f), []).
Proof. intros H. unfold loop_body. now rewrite H. Qed.

Lemma selection_guard_full (key : Z) (g : Globals) :
  (4 <= length (roi_points g))%nat -> selection_guard key g = false.
Proof.
  intros H. unfold selection_guard. apply Nat.ltb_ge in H. rewrite H.
  apply andb_false_r.
Qed.

(** Once four points are recorded, a round changes neither the points nor
    the box nor the histogram. *)
Lemma loop_body_selected (s : MainState) (f : Mat) (ws : list Wait) :
  (4 <= length (roi_points (globals s)))%nat ->
  let s' := step_state (fst (loop_body cv s f ws pending)) in
  roi_points (globals s') = roi_points (globals s) /\
  input_mode (globals s') = input_mode (globals s) /\
  roi_box s' = roi_box s /\ roi_hist s' = roi_hist s.
Proof.
  intros H. unfold loop_body.
  destruct (mat_empty f); [cbn; auto|].
  set (g0 := mkGlobals f (roi_points (globals s)) (input_mode (globals s))).
  set (r1 := if negb (rect_empty (roi_box s))
             then apply_camshift cv (roi_box s) termination (roi_hist s) g0
             else (g0, [])).
  assert (H1 : roi_points (fst r1) = roi_points (globals s) /\
               input_mode (fst r1) = input_mode (globals s)).
  { unfold r1. destruct (negb (rect_empty (roi_box s))); cbn; auto. }
  destruct r1 as [g1 t1]. cbn [fst] in H1. destruct H1 as [Hp Hm].
  destruct ws as [|w ws'];
    [rewrite dispatch_full by (rewrite Hp; exact H); cbn; auto|].
  rewrite dispatch_full by (rewrite Hp; exact H).
  rewrite selection_guard_full by (rewrite Hp; exact H).
  destruct (to_char (w_key w) =? char_q); cbn; auto.
Qed.

(** In general a round either keeps box and histogram or replaces both by
    the result of a selection that it started with fewer than four points
    and that returned with four. *)
Lemma loop_body_box (s : MainState) (f : Mat) (ws : list Wait) :
  let s' := step_state (fst (loop_body cv s f ws pending)) in
  (roi_box s' = roi_box s /\ roi_hist s' = roi_hist s) \/
  ((length (roi_points (globals s)) < 4)%nat /\
   (4 <= length (roi_points (globals s')))%nat).
Proof.
  destruct (Nat.le_gt_cases 4 (length (roi_points (globals s)))) as [H|H].
  - left. apply (loop_body_selected s f ws H).
  - unfold loop_body.
    destruct (mat_empty f); [cbn; auto|].
    destruct (if negb (rect_empty (roi_box s)) then _ else _) as [g1 t1].
    destruct ws as [|w ws'];
      [destruct (dispatch cv pending g1) as [g2 t3]; cbn; auto|].
    destruct (dispatch cv (w_mouse w) g1) as [g2 t3].
    destruct (selection_guard (to_char (w_key w)) g2).
    + destruct (frame_roi cv g2 ws' pending) as [[[o g3] ws3] t4] eqn:E.
      destruct o as [[hist box]| | |]; cbn; auto.
      right. split; [lia|]. apply (frame_roi_returned cv pending _ _ _ _ _ _ _ E).
    + destruct (to_char (w_key w) =? char_q); cbn; auto.
Qed.

Lemma loop_body_inv (s : MainState) (f : Mat) (ws : list Wait) :
  box_from_selection s ->
  box_from_selection (step_state (fst (loop_body cv s f ws pending))).
Proof.
  intros [He|H4].
  - destruct (loop_body_box s f ws) as [[Hb _]|[_ H]].
    + left. now rewrite Hb.
    + right. exact H.
  - right. destruct (loop_body_selected s f ws H4) as (Hp & _).
    now rewrite Hp.
Qed.

(** The calls of the tracking primitive a round makes: one, on the box
    and histogram of [main], when the frame is there and the box is not
    empty; none otherwise. *)
Lemma loop_body_calls (s : MainState) (f : Mat) (ws : list Wait) :
  camshift_calls (snd (loop_body cv s f ws pending)) =
  if mat_empty f then []
  else if rect_empty (roi_box s) then []
  else [camshift_call_on cv s f].
Proof.
  unfold loop_body. destruct (mat_empty f); [reflexivity|].
  set (g0 := mkGlobals f (roi_points (globals s)) (input_mode (globals s))).
  set (r1 := if negb (rect_empty (roi_box s))
             then apply_camshift cv (roi_box s) termination (roi_hist s) g0
             else (g0, [])).
  assert (H1 : camshift_calls (snd r1) =
               if rect_empty (roi_box s) then [] else [camshift_call_on cv s f]).
  { unfold r1. destruct (rect_empty (roi_box s)); reflexivity. }
  destruct r1 as [g1 t1]. cbn [snd] in H1.
  assert (H2 : camshift_calls (t1 ++ [EvImshow (frame g1)]) =
               if rect_empty (roi_box s) then [] else [camshift_call_on cv s f]).
  { rewrite camshift_calls_app, H1. cbn. apply app_nil_r. }
  destruct ws as [|w ws'].
  { pose proof (dispatch_no_calls cv pending g1) as H3.
    destruct (dispatch cv pending g1) as [g2 t3]. cbn [snd] in *.
    rewrite camshift_calls_app, H2, H3. apply app_nil_r. }
  pose proof (dispatch_no_calls cv (w_mouse w) g1) as H3.
  destruct (dispatch cv (w_mouse w) g1) as [g2 t3]. cbn [snd] in H3.
  assert (H4 : camshift_calls ((t1 ++ [EvImshow (frame g1)]) ++ t3) =
               if rect_empty (roi_box s) then [] else [camshift_call_on cv s f]).
  { rewrite camshift_calls_app, H2, H3. apply app_nil_r. }
  destruct (selection_guard (to_char (w_key w)) g2).
  - pose proof (frame_roi_no_calls cv pending g2 ws') as H5.
    destruct (frame_roi cv g2 ws' pending) as [[[o g3] ws3] t4]. cbn [snd] in H5.
    assert (H6 : camshift_calls ((t1 ++ [EvImshow (frame g1)]) ++ t3 ++ t4) =
                 if rect_empty (roi_box s) then [] else [camshift_call_on cv s f]).
    { rewrite app_assoc, camshift_calls_app, H4, H5. apply app_nil_r. }
    destruct o as [[hist box]| | |]; exact H6.
  - destruct (to_char (w_key w) =? char_q); exact H4.
Qed.

End Loop.

(** ** Runs of the main loop *)

Section Runs.

Variable cv : OpenCV.
Variable pending : list MouseEvent.

Lemma main_loop_cons (s : MainState) (f : Mat) (frames : list Mat) (ws : list Wait) :
  main_loop cv s (f :: frames) ws pending =
  match loop_body cv s f ws pending with
  | (Continue s1 ws1, t1) =>
      let '(st, s2, t2) := main_loop cv s1 frames ws1 pending in (st, s2, t1 ++ t2)
  | (Stop st s1, t1) => (st, s1, t1)
  end.
Proof. reflexivity. Qed.

(** C5: a round in which the camera delivers no frame ends the loop on
    the spot, with nothing done: no tracking call, no display, and
    whatever the camera would deliver afterwards is never looked at. *)
Theorem main_loop_stops_without_frame
  (s : MainState) (f : Mat) (rest : list Mat) (ws : list Wait) :
  mat_empty f = true ->
  main_loop cv s (f :: rest) ws pending = (Exited, with_frame s f, []) /\
  forall (s0 : MainState) (before : list Mat) (ws0 : list Wait),
    main_loop cv s0 (before ++ f :: rest) ws0 pending
    = main_loop cv s0 (before ++ [f]) ws0 pending.
Proof.
  intros H. split.
  - rewrite main_loop_cons, loop_body_empty_frame by exact H. reflexivity.
  - intros s0 before. revert s0.
    induction before as [|b before IH]; intros s0 ws0.
    + cbn [app]. rewrite !main_loop_cons, loop_body_empty_frame by exact H.
      reflexivity.
    + cbn [app]. rewrite !main_loop_cons.
      destruct (loop_body cv s0 b ws0 pending) as [[s1 ws1|st s1] t1]; [|reflexivity].
      now rewrite IH.
Qed.

Lemma main_loop_selected (frames : list Mat) (s : MainState) (ws : list Wait) :
  (4 <= length (roi_points (globals s)))%nat ->
  let s' := snd (fst (main_loop cv s frames ws pending)) in
  roi_points (globals s') = roi_points (globals s) /\
  roi_box s' = roi_box s /\ roi_hist s' = roi_hist s.
Proof.
  revert s ws. induction frames as [|f frames IH]; intros s ws H; [cbn; auto|].
  rewrite main_loop_cons.
  destruct (loop_body_selected cv pending s f ws H) as (Hp & _ & Hb & Hh).
  destruct (loop_body cv s f ws pending) as [[s1 ws1|st s1] t1]; cbn [fst step_state] in *.
  - assert (H1 : (4 <= length (roi_points (globals s1)))%nat) by now rewrite Hp.
    specialize (IH s1 ws1 H1).
    destruct (main_loop cv s1 frames ws1 pending) as [[st s2] t2]. cbn [fst snd] in *.
    destruct IH as (IHp & IHb & IHh). repeat split; congruence.
  - cbn. auto.
Qed.

Lemma main_loop_inv (frames : list Mat) (s : MainState) (ws : list Wait) :
  box_from_selection s ->
  box_from_selection (snd (fst (main_loop cv s frames ws pending))).
Proof.
  revert s ws. induction frames as [|f frames IH]; intros s ws H; [exact H|].
  rewrite main_loop_cons.
  pose proof (loop_body_inv cv pending s f ws H) as H1.
  destruct (loop_body cv s f ws pending) as [[s1 ws1|st s1] t1]; cbn [fst step_state] in H1.
  - specialize (IH s1 ws1 H1).
    destruct (main_loop cv s1 frames ws1 pending) as [[st s2] t2]. exact IH.
  - exact H1.
Qed.

(** Every call of the tracking primitive in a run is given the box the
    run ends with, and the criteria of line 142. *)
Lemma main_loop_calls (frames : list Mat) (s : MainState) (ws : list Wait) :
  box_from_selection s ->
  Forall (fun c => snd (fst c) = roi_box (snd (fst (main_loop cv s frames ws pending)))
                   /\ snd c = termination)
         (camshift_calls (snd (main_loop cv s frames ws pending))).
Proof.
  revert s ws. induction frames as [|f frames IH]; intros s ws H; [constructor|].
  rewrite main_loop_cons.
  pose proof (loop_body_calls cv pending s f ws) as Hc.
  pose proof (loop_body_inv cv pending s f ws H) as H1.
  assert (Hkeep : rect_empty (roi_box s) = false ->
                  roi_box (step_state (fst (loop_body cv s f ws pending))) = roi_box s /\
                  (4 <= length (roi_points
                     (globals (step_state (fst (loop_body cv s f ws pending))))))%nat).
  { intros Hne. destruct H as [He|H4]; [congruence|].
    destruct (loop_body_selected cv pending s f ws H4) as (Hp & _ & Hb & _).
    split; [exact Hb|now rewrite Hp]. }
  assert (Hround : forall b, roi_box (step_state (fst (loop_body cv s f ws pending))) = b ->
            Forall (fun c => snd (fst c) = b /\ snd c = termination)
                   (camshift_calls (snd (loop_body cv s f ws pending)))).
  { intros b Eb. rewrite Hc. destruct (mat_empty f); [constructor|].
    destruct (rect_empty (roi_box s)) eqn:Ee; [constructor|].
    constructor; [|constructor]. cbn. split; [|reflexivity].
    rewrite <- Eb. symmetry. apply Hkeep. reflexivity. }
  destruct (loop_body cv s f ws pending) as [[s1 ws1|st s1] t1];
    cbn [fst snd step_state] in *.
  - specialize (IH s1 ws1 H1).
    assert (Hsame : camshift_calls t1 <> [] ->
                    roi_box (snd (fst (main_loop cv s1 frames ws1 pending))) = roi_box s1).
    { intros Hne. rewrite Hc in Hne. destruct (mat_empty f); [congruence|].
      destruct (rect_empty (roi_box s)) eqn:Ee; [congruence|].
      apply main_loop_selected. apply Hkeep. reflexivity. }
    destruct (main_loop cv s1 frames ws1 pending) as [[st s2] t2]. cbn [fst snd] in *.
    rewrite camshift_calls_app. apply Forall_app. split; [|exact IH].
    destruct (camshift_calls t1) as [|c l] eqn:El; [constructor|].
    rewrite Hsame by discriminate. apply Hround. reflexivity.
  - apply Hround. reflexivity.
Qed.

Lemma main_run (parser : ParsedArgs) (frames : list Mat) (ws : list Wait) :
  roi_box (snd (fst (main cv parser frames ws pending)))
    = roi_box (snd (fst (main_loop cv main_init frames ws pending))) /\
  camshift_calls (snd (main cv parser frames ws pending))
    = camshift_calls (snd (main_loop cv main_init frames ws pending)).
Proof.
  unfold main.
  destruct (get_arguments parser String.EmptyString) as [video_path t0] eqn:Eg.
  assert (H0 : camshift_calls t0 = []).
  { unfold get_arguments in Eg. destruct (has_help parser);
      injection Eg as <- <-; reflexivity. }
  destruct (main_loop cv main_init frames ws pending) as [[st s] t2]. cbn [fst snd].
  assert (H1 : forall t1 t3,
             camshift_calls t1 = [] -> camshift_calls t3 = [] ->
             camshift_calls (t0 ++ t1 ++ t2 ++ t3) = camshift_calls t2).
  { intros t1 t3 E1 E3. rewrite !camshift_calls_app, H0, E1, E3.
    cbn. apply app_nil_r. }
  destruct st; cbn [fst snd]; split; try reflexivity.
  - apply H1; [destruct (String.eqb _ _)|]; reflexivity.
  - rewrite <- (app_nil_r t2) at 1. apply H1; [destruct (String.eqb _ _)|]; reflexivity.
  - rewrite <- (app_nil_r t2) at 1. apply H1; [destruct (String.eqb _ _)|]; reflexivity.
Qed.

End Runs.

(** ** What the runs of the program satisfy *)

(** An end of stream after one good frame: the loop shows the first frame
    and exits at the second, and the frame that would follow is never
    used. *)
Lemma main_loop_stops_without_frame_witness :
  let f := Sample.plain (30, 0, 0) in
  main_loop Sample.cv main_init [f; []; f] [mkWait [] (-1); mkWait [] (-1)] []
  = main_loop Sample.cv main_init [f; []] [mkWait [] (-1); mkWait [] (-1)] [] /\
  camshift_calls
    (snd (main_loop Sample.cv main_init [f; []; f]
            [mkWait [] (-1); mkWait [] (-1)] [])) = [].
Proof.
  cbv zeta. split; [|reflexivity].
  apply (proj2 (main_loop_stops_without_frame Sample.cv [] main_init []
                  [Sample.plain (30, 0, 0)] [] eq_refl)
           main_init [Sample.plain (30, 0, 0)]).
Defined.

(** C8: every call of the tracking primitive, in every run of the
    program, is given the same termination criteria: at most 10
    iterations, epsilon 1, and a type in which both the count bit and the
    epsilon bit are set, so that either bound ends the search. *)
Theorem camshift_always_bounded
  (cv : OpenCV) (parser : ParsedArgs) (frames : list Mat) (ws : list Wait)
  (pending : list MouseEvent) :
  Forall (fun c =>
            let criteria := snd c in
            criteria = termination /\
            tc_maxCount criteria = 10 /\
            tc_epsilon criteria = 1%Q /\
            Z.land (tc_type criteria) TermCriteria_COUNT = TermCriteria_COUNT /\
            Z.land (tc_type criteria) TermCriteria_EPS = TermCriteria_EPS)
         (camshift_calls (snd (main cv parser frames ws pending))).
Proof.
  destruct (main_run cv pending parser frames ws) as [_ Hc]. rewrite Hc.
  pose proof (main_loop_calls cv pending frames main_init ws (or_introl eq_refl)) as H.
  eapply Forall_impl; [|exact H].
  intros c [_ Hc']. cbv zeta. rewrite Hc'. repeat split.
Qed.

(** C9: once four points are recorded the selection cannot be entered
    again: the guard of the selection key is false whatever key is
    pressed, and through any further run of the loop the points, the box
    and the histogram stay what they are. *)
Theorem selection_is_one_shot
  (cv : OpenCV) (s : MainState) (frames : list Mat) (ws : list Wait)
  (pending : list MouseEvent) :
  length (roi_points (globals s)) = 4%nat ->
  (forall key, selection_guard key (globals s) = false) /\
  let s' := snd (fst (main_loop cv s frames ws pending)) in
  roi_points (globals s') = roi_points (globals s) /\
  (forall key, selection_guard key (globals s') = false) /\
  roi_box s' = roi_box s /\
  roi_hist s' = roi_hist s.
Proof.
  intros H. assert (H4 : (4 <= length (roi_points (globals s)))%nat) by lia.
  split; [intros key; apply selection_guard_full, H4|].
  destruct (main_loop_selected cv pending frames s ws H4) as (Hp & Hb & Hh).
  cbv zeta. repeat split; try assumption.
  intros key. apply selection_guard_full. now rewrite Hp.
Qed.

(** C3, as the code has it: in every run of the program, every call of
    the tracking primitive is given as its search window the ROI box that
    [main] holds at the end of the run, which is the box the selection
    returned; the window is the same on every frame, and the window the
    search ends with is not kept. *)
Theorem camshift_seed_is_selected_box
  (cv : OpenCV) (parser : ParsedArgs) (frames : list Mat) (ws : list Wait)
  (pending : list MouseEvent) :
  Forall (fun window => window = roi_box (snd (fst (main cv parser frames ws pending))))
         (camshift_windows (snd (main cv parser frames ws pending))).
Proof.
  destruct (main_run cv pending parser frames ws) as [Hb Hc].
  unfold camshift_windows. rewrite Hb, Hc. apply Forall_map.
  pose proof (main_loop_calls cv pending frames main_init ws (or_introl eq_refl)) as H.
  eapply Forall_impl; [|exact H]. intros c [Hw _]. exact Hw.
Qed.

(** ** The sample library meets the documented contract *)

Module SampleFacts.
Import Sample.

Lemma qmin_le (a b : Q) : (qmin a b <= a /\ qmin a b <= b)%Q.
Proof.
  unfold qmin. destruct (Qle_bool a b) eqn:E.
  - apply Qle_bool_iff in E. split; [apply Qle_refl|exact E].
  - split; [|apply Qle_refl].
    apply Qlt_le_weak, Qnot_le_lt. intros H.
    apply Qle_bool_iff in H. congruence.
Qed.

Lemma qmax_ge (a b : Q) : (a <= qmax a b /\ b <= qmax a b)%Q.
Proof.
  unfold qmax. destruct (Qle_bool a b) eqn:E.
  - apply Qle_bool_iff in E. split; [exact E|apply Qle_refl].
  - split; [apply Qle_refl|].
    apply Qlt_le_weak, Qnot_le_lt. intros H.
    apply Qle_bool_iff in H. congruence.
Qed.

Lemma fold_qmin_le (l : list Q) (v0 : Q) :
  (fold_left qmin l v0 <= v0)%Q /\
  forall v, In v l -> (fold_left qmin l v0 <= v)%Q.
Proof.
  revert v0. induction l as [|a l IH]; intros v0; cbn [fold_left].
  - split; [apply Qle_refl|intros v []].
  - destruct (IH (qmin v0 a)) as [H0 Hl]. destruct (qmin_le v0 a) as [Ha Hb].
    split; [eapply Qle_trans; eassumption|].
    intros v [<-|Hv]; [eapply Qle_trans; eassumption|apply Hl, Hv].
Qed.

Lemma fold_qmax_ge (l : list Q) (v0 : Q) :
  (v0 <= fold_left qmax l v0)%Q /\
  forall v, In v l -> (v <= fold_left qmax l v0)%Q.
Proof.
  revert v0. induction l as [|a l IH]; intros v0; cbn [fold_left].
  - split; [apply Qle_refl|intros v []].
  - destruct (IH (qmax v0 a)) as [H0 Hl]. destruct (qmax_ge v0 a) as [Ha Hb].
    split; [eapply Qle_trans; eassumption|].
    intros v [<-|Hv]; [eapply Qle_trans; eassumption|apply Hl, Hv].
Qed.

Lemma hist_min_max (h : Hist) (v : Q) :
  In v h -> (hist_min h <= v /\ v <= hist_max h)%Q.
Proof.
  destruct h as [|a h]; [intros []|]. cbn [hist_min hist_max].
  destruct (fold_qmin_le h a) as [Hm0 Hm]. destruct (fold_qmax_ge h a) as [HM0 HM].
  intros [<-|Hv]; split; auto.
Qed.

(** The affine map of [NORM_MINMAX] stays between the bounds. *)
Lemma rescale_range (smin smax a b v : Q) :
  (a <= b)%Q -> (smin <= v)%Q -> (v <= smax)%Q -> (smin < smax)%Q ->
  let scale := ((b - a) / (smax - smin))%Q in
  (a <= v * scale + (a - smin * scale) /\
   v * scale + (a - smin * scale) <= b)%Q.
Proof.
  intros Hab Hlo Hhi Hlt scale.
  assert (Hd : (0 < smax - smin)%Q) by lra.
  assert (Hs : (0 <= scale)%Q).
  { unfold scale. apply Qle_shift_div_l; [exact Hd|lra]. }
  assert (Hfull : ((smax - smin) * scale == b - a)%Q).
  { unfold scale. field. lra. }
  assert (H1 : (0 <= (v - smin) * scale)%Q)
    by (apply Qmult_le_0_compat; [lra|exact Hs]).
  assert (H2 : (0 <= (smax - v) * scale)%Q)
    by (apply Qmult_le_0_compat; [lra|exact Hs]).
  split; lra.
Qed.

Lemma normalize_range (h : Hist) (a b : Q) :
  (a <= b)%Q ->
  Forall (fun v => (a <= v /\ v <= b)%Q) (normalize h a b NORM_MINMAX).
Proof.
  intros Hab. unfold normalize. rewrite Z.eqb_refl.
  assert (Ea : qmin a b = a).
  { unfold qmin. apply Qle_bool_iff in Hab. now rewrite Hab. }
  assert (Eb : qmax a b = b).
  { unfold qmax. apply Qle_bool_iff in Hab. now rewrite Hab. }
  rewrite Ea, Eb. apply Forall_forall. intros y Hy.
  apply in_map_iff in Hy. destruct Hy as (v & <- & Hv).
  destruct (hist_min_max h v Hv) as [Hlo Hhi].
  destruct (Qle_bool (hist_max h) (hist_min h)) eqn:E.
  - split; lra.
  - apply rescale_range; try assumption.
    apply Qnot_le_lt. intros H. apply Qle_bool_iff in H. congruence.
Qed.

Lemma contract : OpenCV_contract cv.
Proof.
  constructor.
  - intros img histSize lo hi _. cbn. unfold calcHist.
    now rewrite length_map, length_seq.
  - intros h a b norm_type. cbn. unfold normalize.
    destruct (norm_type =? NORM_MINMAX); [apply length_map|reflexivity].
  - intros h a b Hab. apply normalize_range, Hab.
Qed.

End SampleFacts.

(** ** The histogram of the selected region *)

(** C2: given what the library documents about [calcHist] and
    [normalize], every selection that completes with a box of non-zero
    area yields a histogram of exactly 16 bins, computed over the range
    from 0 to 180 on the selected part of the frame, with every bin
    between 0 and 255 after normalisation. *)
Theorem roi_histogram_bins_and_range
  (cv : OpenCV) (g : Globals) (ws : list Wait) (pending : list MouseEvent)
  (hist : Hist) (box : Rect) (g' : Globals) (ws' : list Wait) (t : list Event) :
  OpenCV_contract cv ->
  frame_roi cv g ws pending = (Returned (hist, box), g', ws', t) ->
  rect_empty box = false ->
  (exists roi,
     submat (frame g) box = Some roi /\
     hist = normalize cv (calcHist cv (cvtColor cv roi COLOR_BGR2HSV) 16 0 180)
                      0 255 NORM_MINMAX) /\
  length hist = 16%nat /\
  Forall (fun v => (0 <= v /\ v <= 255)%Q) hist.
Proof.
  intros Hcv Hrun _.
  destruct (frame_roi_returned cv pending _ _ _ _ _ _ _ Hrun) as (_ & _ & _ & Hh & _).
  unfold roi_histogram in Hh.
  destruct (submat (frame g) box) as [roi|]; [|discriminate].
  unfold hsv_histogram, cvtColor_checked in Hh.
  destruct (mat_empty roi); [discriminate|].
  injection Hh as <-. split; [exists roi; auto|]. split.
  - rewrite (normalize_length cv Hcv), (calcHist_bins cv Hcv) by lia.
    reflexivity.
  - apply (normalize_minmax_range cv Hcv). lra.
Qed.

(** A selection of the middle of a 6 x 6 frame of one hue: 16 bins, the
    bin of that hue at 255 and the others at 0. *)
Lemma roi_histogram_bins_and_range_witness :
  let g := mkGlobals (Sample.plain (30, 0, 0)) [] false in
  let ws := [mkWait [Sample.click 1 1; Sample.click 1 4] 0;
             mkWait [Sample.click 4 1; Sample.click 4 4] 0] in
  exists hist box,
    fst (fst (fst (frame_roi Sample.cv g ws []))) = Returned (hist, box) /\
    box = mkRect 1 1 3 3 /\
    length hist = 16%nat /\
    Forall (fun v => (0 <= v /\ v <= 255)%Q) hist.
Proof.
  cbv zeta.
  pose (g := mkGlobals (Sample.plain (30, 0, 0)) [] false).
  pose (ws := [mkWait [Sample.click 1 1; Sample.click 1 4] 0;
               mkWait [Sample.click 4 1; Sample.click 4 4] 0]).
  destruct (frame_roi Sample.cv g ws []) as [[[o g'] ws'] t] eqn:E.
  destruct o as [[hist box]| | |]; try (vm_compute in E; discriminate E).
  exists hist, box.
  assert (Eb : box = mkRect 1 1 3 3) by (vm_compute in E; congruence).
  destruct (roi_histogram_bins_and_range Sample.cv g ws [] hist box g' ws' t
              SampleFacts.contract E) as (_ & Hlen & Hrange).
  - rewrite Eb. reflexivity.
  - fold g ws. rewrite E. auto.
Defined.

(** ** The frozen frame *)

Section Frozen.

Variable cv : OpenCV.
Variable pending : list MouseEvent.
Variable mark : Mat -> Point -> Z -> Scalar -> Z -> Mat.

Lemma select_roi_marker (event x y : Z) (g g' : Globals) :
  same_selection g g' ->
  same_selection (fst (select_roi cv event x y g))
                 (fst (select_roi (with_circle cv mark) event x y g')).
Proof.
  intros [Hp Hm]. unfold select_roi. rewrite <- Hp, <- Hm.
  destruct (input_mode g && (event =? EVENT_LBUTTONDOWN)
            && (length (roi_points g) <? 4)%nat);
    split; cbn [fst roi_points input_mode]; congruence.
Qed.

Lemma dispatch_marker (evs : list MouseEvent) (g g' : Globals) :
  same_selection g g' ->
  same_selection (fst (dispatch cv evs g))
                 (fst (dispatch (with_circle cv mark) evs g')).
Proof.
  revert g g'. induction evs as [|e evs IH]; intros g g' H; cbn [dispatch];
    [exact H|].
  pose proof (select_roi_marker (me_event e) (me_x e) (me_y e) g g' H) as H1.
  destruct (select_roi cv _ _ _ g) as [g1 t1].
  destruct (select_roi (with_circle cv mark) _ _ _ g') as [g1' t1'].
  specialize (IH g1 g1' H1).
  destruct (dispatch cv evs g1) as [g2 t2].
  destruct (dispatch (with_circle cv mark) evs g1') as [g2' t2'].
  exact IH.
Qed.

Lemma await_points_marker (ws : list Wait) (g g' : Globals) :
  same_selection g g' ->
  same_selection (snd (fst (fst (await_points cv g ws pending))))
                 (snd (fst (fst (await_points (with_circle cv mark) g' ws pending)))) /\
  fst (fst (fst (await_points cv g ws pending)))
    = fst (fst (fst (await_points (with_circle cv mark) g' ws pending))) /\
  snd (fst (await_points cv g ws pending))
    = snd (fst (await_points (with_circle cv mark) g' ws pending)).
Proof.
  revert g g'. induction ws as [|w ws IH]; intros g g' H; cbn [await_points];
    pose proof H as [Hp Hm]; rewrite <- Hp;
    destruct (length (roi_points g) <? 4)%nat;
    try (split; [exact H|split; reflexivity]).
  - pose proof (dispatch_marker pending g g' H) as H1.
    destruct (dispatch cv pending g) as [g1 t1].
    destruct (dispatch (with_circle cv mark) pending g') as [g1' t1'].
    cbn [fst snd] in *. auto.
  - pose proof (dispatch_marker (w_mouse w) g g' H) as H1.
    destruct (dispatch cv (w_mouse w) g) as [g1 t1].
    destruct (dispatch (with_circle cv mark) (w_mouse w) g') as [g1' t1'].
    specialize (IH g1 g1' H1).
    destruct (await_points cv g1 ws pending) as [[[done g2] ws2] t2].
    destruct (await_points (with_circle cv mark) g1' ws pending)
      as [[[done' g2'] ws2'] t2'].
    exact IH.
Qed.

Lemma frame_roi_marker (g : Globals) (ws : list Wait) :
  fst (fst (fst (frame_roi (with_circle cv mark) g ws pending)))
    = fst (fst (fst (frame_roi cv g ws pending))) /\
  roi_points (snd (fst (fst (frame_roi (with_circle cv mark) g ws pending))))
    = roi_points (snd (fst (fst (frame_roi cv g ws pending)))) /\
  snd (fst (frame_roi (with_circle cv mark) g ws pending))
    = snd (fst (frame_roi cv g ws pending)).
Proof.
  unfold frame_roi. cbn [frame].
  destruct (await_points_marker ws
              (mkGlobals (frame g) (roi_points g) true)
              (mkGlobals (frame g) (roi_points g) true)
              (conj eq_refl eq_refl)) as ([Hp _] & Hd & Hw).
  destruct (await_points cv _ ws pending) as [[[done g1] ws1] t1].
  destruct (await_points (with_circle cv mark) _ ws pending)
    as [[[done' g1'] ws1'] t1'].
  cbn [fst snd] in Hp, Hd, Hw. rewrite <- Hp, <- Hw, <- Hd.
  destruct done; cbn [negb]; [|auto].
  destruct (submat (frame g) (compute_roi_box (roi_points g1))) as [roi|];
    [|auto].
  change (hsv_histogram (with_circle cv mark) roi) with (hsv_histogram cv roi).
  destruct (hsv_histogram cv roi); auto.
Qed.

End Frozen.

(** C7: the histogram a selection returns is the histogram of the
    selected part of the frame as it was when the selection was entered.
    However the click markers are drawn on the live frame, and also when
    none is drawn, the selection returns the same histogram and the same
    box; and once the selection is done, the frames that follow leave the
    histogram as it is. *)
Theorem histogram_from_frozen_frame
  (cv : OpenCV) (g : Globals) (ws : list Wait) (pending : list MouseEvent) :
  (forall hist box g' ws' t,
     frame_roi cv g ws pending = (Returned (hist, box), g', ws', t) ->
     roi_histogram cv (frame g) box = Some hist) /\
  (forall mark,
     fst (fst (fst (frame_roi (with_circle cv mark) g ws pending)))
     = fst (fst (fst (frame_roi cv g ws pending)))) /\
  (forall s frames ws0,
     (4 <= length (roi_points (globals s)))%nat ->
     roi_hist (snd (fst (main_loop cv s frames ws0 pending))) = roi_hist s).
Proof.
  repeat split.
  - intros hist box g' ws' t H.
    apply (frame_roi_returned cv pending _ _ _ _ _ _ _ H).
  - intros mark. apply frame_roi_marker.
  - intros s frames ws0 H. apply (main_loop_selected cv pending frames s ws0 H).
Qed.

(** A selection on a frame of one colour: the live frame ends up with four
    green markers, the histogram is the one of the unmarked region. *)
Lemma histogram_from_frozen_frame_witness :
  let f := Sample.plain (30, 0, 0) in
  let g := mkGlobals f [] false in
  let ws := [mkWait [Sample.click 1 1; Sample.click 1 4] 0;
             mkWait [Sample.click 4 1; Sample.click 4 4] 0] in
  frame (snd (fst (fst (frame_roi Sample.cv g ws [])))) <> f /\
  exists hist box,
    fst (fst (fst (frame_roi Sample.cv g ws []))) = Returned (hist, box) /\
    roi_histogram Sample.cv f box = Some hist.
Proof.
  cbv zeta. split; [vm_compute; discriminate|].
  pose (g := mkGlobals (Sample.plain (30, 0, 0)) [] false).
  pose (ws := [mkWait [Sample.click 1 1; Sample.click 1 4] 0;
               mkWait [Sample.click 4 1; Sample.click 4 4] 0]).
  destruct (frame_roi Sample.cv g ws []) as [[[o g'] ws'] t] eqn:E.
  destruct o as [[hist box]| | |]; try (vm_compute in E; discriminate E).
  exists hist, box. fold g ws. rewrite E. split; [reflexivity|].
  apply (proj1 (histogram_from_frozen_frame Sample.cv g ws []) hist box g' ws' t E).
Defined.

(** ** The help flag *)

(** C4 fails on the code: with the help flag the program prints the usage
    text and then does everything it does when started without any
    argument; it opens camera 0 and runs the main loop. *)
Theorem help_flag_still_runs
  (cv : OpenCV) (video : String.string) (frames : list Mat) (ws : list Wait)
  (pending : list MouseEvent) :
  main cv (mkParsedArgs true video) frames ws pending =
  let '(code, s, t) := main cv (mkParsedArgs false String.EmptyString) frames ws pending in
  (code, s, EvPrintMessage :: t).
Proof.
  unfold main, get_arguments. cbn [has_help arg_video].
  destruct (main_loop cv main_init frames ws pending) as [[st s] t2].
  destruct st; reflexivity.
Qed.

Example help_flag_run :
  let f := Sample.plain (30, 0, 0) in
  snd (main Sample.cv (mkParsedArgs true String.EmptyString) [f] [mkWait [] (-1)] [])
  = [EvPrintMessage; EvOpenDevice 0; EvImshow f].
Proof. reflexivity. Qed.

(** ** Sample runs *)

(** After a selection of a square, the selection key and two more clicks
    change nothing. *)
Lemma selection_is_one_shot_witness :
  let s := Sample.after Sample.select_square in
  let ws := [mkWait [Sample.click 0 0; Sample.click 5 5] char_i; Sample.no_key] in
  let s' := snd (fst (main_loop Sample.cv s [Sample.f0; Sample.f0] ws [])) in
  roi_points (globals s)
    = [mkPoint 1 1; mkPoint 1 4; mkPoint 4 1; mkPoint 4 4] /\
  roi_points (globals s') = roi_points (globals s) /\
  roi_box s' = mkRect 1 1 3 3 /\
  roi_hist s' = roi_hist s.
Proof.
  cbv zeta. split; [reflexivity|].
  destruct (selection_is_one_shot Sample.cv
              (Sample.after Sample.select_square)
              [Sample.f0; Sample.f0]
              [mkWait [Sample.click 0 0; Sample.click 5 5] char_i; Sample.no_key]
              [])
    as (_ & Hp & _ & Hb & Hh).
  - reflexivity.
  - split; [exact Hp|]. split; [rewrite Hb; reflexivity|exact Hh].
Defined.

(** C3 as worded fails.  Two tracked frames after a selection: the
    sample search ends the first frame with the window (2,2,3,3), and the
    second frame is searched from (1,1,3,3) again. *)
Lemma camshift_seed_not_carried :
  let t := snd (main Sample.cv Sample.no_args
                  [Sample.f0; Sample.f0; Sample.f0]
                  (Sample.select_square ++ [Sample.no_key; Sample.no_key]) []) in
  camshift_windows t = [mkRect 1 1 3 3; mkRect 1 1 3 3] /\
  map (fun c => snd (CamShift Sample.cv (fst (fst c)) (snd (fst c)) (snd c)))
      (camshift_calls t) = [mkRect 2 2 3 3; mkRect 2 2 3 3] /\
  ~ seeds_carry_forward Sample.cv (camshift_calls t).
Proof.
  cbv zeta. split; [reflexivity|]. split; [reflexivity|].
  intros H. vm_compute in H. destruct H as [H _]. discriminate H.
Qed.

(** The box and the criteria of the two calls of that run. *)
Example camshift_seed_is_selected_box_run :
  let r := main Sample.cv Sample.no_args
             [Sample.f0; Sample.f0; Sample.f0]
             (Sample.select_square ++ [Sample.no_key; Sample.no_key]) [] in
  roi_box (snd (fst r)) = mkRect 1 1 3 3 /\
  map snd (camshift_calls (snd r))
    = [mkTermCriteria 3 10 1; mkTermCriteria 3 10 1].
Proof. split; reflexivity. Qed.

(** * Further properties of the program *)

(** ** Which clicks are recorded *)

Section Clicks.

Variable cv : OpenCV.
Variable pending : list MouseEvent.

Lemma left_clicks_app (a b : list MouseEvent) :
  left_clicks (a ++ b) = left_clicks a ++ left_clicks b.
Proof. unfold left_clicks. now rewrite filter_app, map_app. Qed.

Lemma firstn_room_app (k : nat) (a b : list Point) :
  firstn k (a ++ b)
  = firstn k a ++ firstn (k - length (firstn k a)) b.
Proof.
  rewrite firstn_app, length_firstn. f_equal.
  destruct (Nat.le_gt_cases (length a) k) as [H|H].
  - now rewrite Nat.min_r by exact H.
  - rewrite Nat.min_l by lia.
    replace (k - length a)%nat with 0%nat by lia.
    now replace (k - k)%nat with 0%nat by lia.
Qed.

(** One call of the callback in selection mode. *)
Lemma select_roi_record (e : MouseEvent) (g : Globals) :
  input_mode g = true ->
  let g' := fst (select_roi cv (me_event e) (me_x e) (me_y e) g) in
  let new := firstn (4 - length (roi_points g)) (left_clicks [e]) in
  roi_points g' = roi_points g ++ new /\
  frame g' = fold_left (draw_marker cv) new (frame g) /\
  snd (select_roi cv (me_event e) (me_x e) (me_y e) g)
    = map (fun _ => EvImshow (frame g')) new.
Proof.
  intros Hm. unfold select_roi, left_clicks, is_left_click. rewrite Hm.
  cbn [andb filter].
  destruct (me_event e =? EVENT_LBUTTONDOWN); cbn [andb map].
  - destruct (length (roi_points g) <? 4)%nat eqn:E.
    + apply Nat.ltb_lt in E.
      destruct (4 - length (roi_points g))%nat as [|k] eqn:Ek; [lia|].
      cbn. rewrite firstn_nil. auto.
    + apply Nat.ltb_ge in E.
      replace (4 - length (roi_points g))%nat with 0%nat by lia.
      cbn. rewrite app_nil_r. auto.
  - rewrite firstn_nil. cbn. rewrite app_nil_r. auto.
Qed.

(** What a batch of mouse events leaves behind in selection mode. *)
Lemma dispatch_record
  (evs : list MouseEvent) (g : Globals) :
  input_mode g = true ->
  let g' := fst (dispatch cv evs g) in
  let new := firstn (4 - length (roi_points g)) (left_clicks evs) in
  roi_points g' = roi_points g ++ new /\
  frame g' = fold_left (draw_marker cv) new (frame g) /\
  length (snd (dispatch cv evs g)) = length new /\
  input_mode g' = true.
Proof.
  revert g. induction evs as [|e evs IH]; intros g Hm.
  - cbn. rewrite firstn_nil, app_nil_r. auto.
  - cbn [dispatch].
    destruct (select_roi_record e g Hm) as (Hp & Hf & Ht).
    pose proof (select_roi_mode cv (me_event e) (me_x e) (me_y e) g) as Hm1.
    destruct (select_roi cv (me_event e) (me_x e) (me_y e) g) as [g1 t1].
    cbn [fst snd] in Hp, Hf, Ht, Hm1. rewrite Hm in Hm1.
    specialize (IH g1 Hm1). destruct (dispatch cv evs g1) as [g2 t2].
    cbn [fst snd] in *. destruct IH as (IHp & IHf & IHt & IHm).
    change (e :: evs) with ([e] ++ evs).
    rewrite left_clicks_app, firstn_room_app.
    set (new1 := firstn (4 - length (roi_points g)) (left_clicks [e])) in *.
    assert (Hk : (4 - length (roi_points g1) = 4 - length (roi_points g) - length new1)%nat).
    { rewrite Hp, length_app. lia. }
    rewrite Hk in IHp, IHf, IHt.
    repeat split.
    + rewrite IHp, Hp. now rewrite app_assoc.
    + rewrite IHf, Hf. now rewrite fold_left_app.
    + rewrite !length_app, IHt, Ht, length_map. reflexivity.
    + exact IHm.
Qed.

(** X1: in selection mode the callback records the left clicks, in the
    order they arrive, as long as fewer than four points are recorded;
    every other mouse event and every later click leaves no trace.  The
    live frame gets one marker per recorded point, and each recorded
    point causes exactly one redraw. *)
Theorem recorded_points_are_first_left_clicks
  (evs : list MouseEvent) (g : Globals) :
  input_mode g = true ->
  let g' := fst (dispatch cv evs g) in
  let new := firstn (4 - length (roi_points g)) (left_clicks evs) in
  roi_points g' = roi_points g ++ new /\
  frame g' = fold_left (draw_marker cv) new (frame g) /\
  length (snd (dispatch cv evs g)) = length new /\
  input_mode g' = true.
Proof. apply dispatch_record. Qed.

(** The points the wait loop ends with, and whether it was left: the
    clicks of the waits that returned decide whether the loop is left, the
    clicks of the wait that did not return are recorded all the same. *)
Lemma await_points_record (ws : list Wait) (g : Globals) :
  input_mode g = true ->
  roi_points (snd (fst (fst (await_points cv g ws pending))))
  = roi_points g
    ++ firstn (4 - length (roi_points g))
              (left_clicks (all_mouse ws ++ pending)) /\
  (fst (fst (fst (await_points cv g ws pending))) = false <->
   (length (roi_points g) + length (left_clicks (all_mouse ws)) < 4)%nat).
Proof.
  revert g. induction ws as [|w ws IH]; intros g Hm; cbn [await_points].
  - destruct (length (roi_points g) <? 4)%nat eqn:E.
    + apply Nat.ltb_lt in E.
      destruct (dispatch_record pending g Hm) as (Hp & _).
      destruct (dispatch cv pending g) as [g1 t1]. cbn [fst snd] in *.
      split; [exact Hp|]. cbn. split; [intros _; lia|reflexivity].
    + apply Nat.ltb_ge in E. cbn [fst snd].
      replace (4 - length (roi_points g))%nat with 0%nat by lia.
      cbn [firstn]. rewrite app_nil_r.
      split; [reflexivity|]. split; [discriminate|lia].
  - destruct (length (roi_points g) <? 4)%nat eqn:E.
    + apply Nat.ltb_lt in E.
      destruct (dispatch_record (w_mouse w) g Hm) as (Hp & _ & _ & Hm1).
      destruct (dispatch cv (w_mouse w) g) as [g1 t1]. cbn [fst] in Hp, Hm1.
      destruct (IH g1 Hm1) as [IHp IHd].
      destruct (await_points cv g1 ws pending) as [[[done g2] ws2] t2].
      cbn [fst snd] in *.
      unfold all_mouse in *. cbn [flat_map]. fold (all_mouse ws) in *.
      assert (Hl : length (roi_points g1)
                   = (length (roi_points g)
                      + Nat.min (4 - length (roi_points g))
                                (length (left_clicks (w_mouse w))))%nat).
      { rewrite Hp, length_app, length_firstn. reflexivity. }
      split.
      * rewrite <- app_assoc, left_clicks_app, firstn_room_app, IHp, Hp.
        rewrite <- app_assoc. do 2 f_equal. f_equal.
        rewrite length_app. lia.
      * rewrite IHd, left_clicks_app, length_app. lia.
    + apply Nat.ltb_ge in E. cbn [fst snd].
      replace (4 - length (roi_points g))%nat with 0%nat by lia.
      cbn [firstn]. rewrite app_nil_r.
      split; [reflexivity|]. split; [discriminate|lia].
Qed.

(** When the loop is left, the clicks of the waits that returned are all
    there is to record. *)
Lemma await_points_record_done (ws : list Wait) (g : Globals) :
  input_mode g = true ->
  fst (fst (fst (await_points cv g ws pending))) = true ->
  roi_points (snd (fst (fst (await_points cv g ws pending))))
  = roi_points g
    ++ firstn (4 - length (roi_points g)) (left_clicks (all_mouse ws)).
Proof.
  intros Hm Hd. destruct (await_points_record ws g Hm) as [Hp Hiff].
  rewrite Hp. f_equal.
  assert (Hge : (4 <= length (roi_points g)
                      + length (left_clicks (all_mouse ws)))%nat).
  { destruct (Nat.le_gt_cases 4 (length (roi_points g)
                + length (left_clicks (all_mouse ws)))) as [H|H]; [exact H|].
    apply Hiff in H. congruence. }
  rewrite left_clicks_app, firstn_app.
  replace (4 - length (roi_points g) - length (left_clicks (all_mouse ws)))%nat
    with 0%nat by lia.
  cbn [firstn]. apply app_nil_r.
Qed.

(** When a selection is held in its wait loop, and what it records. *)
Lemma frame_roi_blocked (g : Globals) (ws : list Wait) :
  (fst (fst (fst (frame_roi cv g ws pending))) = Blocked <->
   (length (roi_points g) + length (left_clicks (all_mouse ws)) < 4)%nat) /\
  roi_points (snd (fst (fst (frame_roi cv g ws pending))))
  = roi_points g
    ++ firstn (4 - length (roi_points g))
              (left_clicks (all_mouse ws ++ pending)).
Proof.
  destruct (frame_roi_loop cv pending g ws) as (Hg & _ & _ & Hb).
  destruct (await_points_record ws
              (mkGlobals (frame g) (roi_points g) true) eq_refl) as [Hp Hd].
  cbn [roi_points] in Hp, Hd. rewrite Hg, Hb. split; [exact Hd|exact Hp].
Qed.

(** X2: a selection stays inside its wait loop exactly when the points
    recorded before it and the left clicks of the waits that a key press
    ended are fewer than four together.  The size is tested only after
    [waitKey(0)] has returned: clicks that arrive in a wait no key press
    ends are recorded and marked, but they do not let the selection leave
    the loop, not even when they complete the four points. *)
Theorem frame_roi_blocked_iff (g : Globals) (ws : list Wait) :
  (fst (fst (fst (frame_roi cv g ws pending))) = Blocked <->
   (length (roi_points g) + length (left_clicks (all_mouse ws)) < 4)%nat) /\
  roi_points (snd (fst (fst (frame_roi cv g ws pending))))
  = roi_points g
    ++ firstn (4 - length (roi_points g))
              (left_clicks (all_mouse ws ++ pending)).
Proof. apply frame_roi_blocked. Qed.

(** The wait loop reads the mouse events of a wait and not its key. *)
Lemma await_points_keys (ws ws' : list Wait) (g : Globals) :
  map w_mouse ws = map w_mouse ws' ->
  fst (fst (await_points cv g ws pending))
    = fst (fst (await_points cv g ws' pending)) /\
  map w_mouse (snd (fst (await_points cv g ws pending)))
    = map w_mouse (snd (fst (await_points cv g ws' pending))) /\
  snd (await_points cv g ws pending) = snd (await_points cv g ws' pending).
Proof.
  revert ws' g. induction ws as [|w ws IH]; intros [|w' ws'] g H;
    try discriminate H.
  - auto.
  - cbn [map] in H. injection H as Hw H. cbn [await_points].
    destruct (length (roi_points g) <? 4)%nat.
    + rewrite <- Hw. destruct (dispatch cv (w_mouse w) g) as [g1 t1].
      specialize (IH ws' g1 H).
      destruct (await_points cv g1 ws pending) as [[[done g2] ws2] t2].
      destruct (await_points cv g1 ws' pending) as [[[done' g2'] ws2'] t2'].
      cbn [fst snd] in *. destruct IH as (Hg & -> & ->).
      injection Hg as -> ->. auto.
    + cbn [fst snd map]. rewrite Hw, H. auto.
Qed.

(** X3: while a selection is open the keys are not looked at: two input
    sequences that deliver the same mouse events give the same result,
    the same state and the same redraws, whatever keys are pressed; the
    quit key does not end a selection. *)
Theorem frame_roi_ignores_keys (g : Globals) (ws ws' : list Wait) :
  map w_mouse ws = map w_mouse ws' ->
  fst (fst (fst (frame_roi cv g ws pending))) = fst (fst (fst (frame_roi cv g ws' pending))) /\
  snd (fst (fst (frame_roi cv g ws pending))) = snd (fst (fst (frame_roi cv g ws' pending))) /\
  map w_mouse (snd (fst (frame_roi cv g ws pending)))
    = map w_mouse (snd (fst (frame_roi cv g ws' pending))) /\
  snd (frame_roi cv g ws pending) = snd (frame_roi cv g ws' pending).
Proof.
  intros H. unfold frame_roi.
  destruct (await_points_keys ws ws'
              (mkGlobals (frame g) (roi_points g) true) H) as (Hg & Hw & Ht).
  destruct (await_points cv _ ws pending) as [[[done g1] ws1] t1].
  destruct (await_points cv _ ws' pending) as [[[done' g1'] ws1'] t1'].
  cbn [fst snd] in Hg, Hw, Ht. injection Hg as -> ->. subst t1'.
  destruct done'; cbn [negb]; [|cbn; auto].
  destruct (submat _ _) as [roi|]; [|cbn; auto].
  destruct (hsv_histogram cv roi); cbn; auto.
Qed.

End Clicks.

(** ** More on the corner search *)

Lemma fold_corner_step_snoc (l : list Point) (p : Point) (c : Corners) :
  fold_left corner_step (l ++ [p]) c = corner_step (fold_left corner_step l c) p.
Proof. now rewrite fold_left_app. Qed.

(** A point whose sum is not below the least sum so far leaves the
    top-left corner alone, and likewise at the other end. *)
Lemma corner_fold_keeps_min (l : list Point) (c : Corners) :
  (forall r, In r l -> min_sum c <= point_sum r) ->
  min_sum (fold_left corner_step l c) = min_sum c /\
  top_left (fold_left corner_step l c) = top_left c.
Proof.
  induction l as [|p l IH] using rev_ind; intros H; [auto|].
  rewrite fold_corner_step_snoc.
  destruct IH as [Hs Ht]; [intros r Hr; apply H, in_or_app; auto|].
  destruct (corner_step_min (fold_left corner_step l c) p) as [_ Hold].
  destruct Hold as [Hs' Ht'].
  - rewrite Hs. apply H, in_or_app. right. left. reflexivity.
  - split; congruence.
Qed.

Lemma corner_fold_keeps_max (l : list Point) (c : Corners) :
  (forall r, In r l -> point_sum r <= max_sum c) ->
  max_sum (fold_left corner_step l c) = max_sum c /\
  bottom_right (fold_left corner_step l c) = bottom_right c.
Proof.
  induction l as [|p l IH] using rev_ind; intros H; [auto|].
  rewrite fold_corner_step_snoc.
  destruct IH as [Hs Ht]; [intros r Hr; apply H, in_or_app; auto|].
  destruct (corner_step_max (fold_left corner_step l c) p) as [_ Hold].
  destruct Hold as [Hs' Ht'].
  - rewrite Hs. apply H, in_or_app. right. left. reflexivity.
  - split; congruence.
Qed.

(** Points of larger sum than [b] leave the least sum above [b]. *)
Lemma corner_fold_min_above (l : list Point) (c : Corners) (b : Z) :
  b < min_sum c -> (forall r, In r l -> b < point_sum r) ->
  b < min_sum (fold_left corner_step l c).
Proof.
  induction l as [|p l IH] using rev_ind; intros Hc H; [exact Hc|].
  rewrite fold_corner_step_snoc.
  assert (IH' : b < min_sum (fold_left corner_step l c))
    by (apply IH; [exact Hc|intros r Hr; apply H, in_or_app; auto]).
  assert (Hp : b < point_sum p) by (apply H, in_or_app; right; left; reflexivity).
  destruct (corner_step_min (fold_left corner_step l c) p) as [Hnew Hold].
  destruct (Z_lt_le_dec (point_sum p) (min_sum (fold_left corner_step l c)))
    as [Hl|Hl].
  - destruct (Hnew Hl) as [-> _]. exact Hp.
  - destruct (Hold Hl) as [-> _]. exact IH'.
Qed.

Lemma corner_fold_max_below (l : list Point) (c : Corners) (b : Z) :
  max_sum c < b -> (forall r, In r l -> point_sum r < b) ->
  max_sum (fold_left corner_step l c) < b.
Proof.
  induction l as [|p l IH] using rev_ind; intros Hc H; [exact Hc|].
  rewrite fold_corner_step_snoc.
  assert (IH' : max_sum (fold_left corner_step l c) < b)
    by (apply IH; [exact Hc|intros r Hr; apply H, in_or_app; auto]).
  assert (Hp : point_sum p < b) by (apply H, in_or_app; right; left; reflexivity).
  destruct (corner_step_max (fold_left corner_step l c) p) as [Hnew Hold].
  destruct (Z_lt_le_dec (max_sum (fold_left corner_step l c)) (point_sum p))
    as [Hl|Hl].
  - destruct (Hnew Hl) as [-> _]. exact Hp.
  - destruct (Hold Hl) as [-> _]. exact IH'.
Qed.

(** X4: among points of equal coordinate sum the one clicked first wins.
    The top-left corner is the first point that reaches the least sum
    (when that sum is below [INT_MAX]), the bottom-right corner the first
    point that reaches the greatest sum (when that sum is positive). *)
Theorem corners_are_first_extremes
  (before after : list Point) (p : Point) :
  (point_sum p < INT_MAX ->
   (forall r, In r before -> point_sum p < point_sum r) ->
   (forall r, In r after -> point_sum p <= point_sum r) ->
   top_left (find_corners (before ++ p :: after)) = p) /\
  (0 < point_sum p ->
   (forall r, In r before -> point_sum r < point_sum p) ->
   (forall r, In r after -> point_sum r <= point_sum p) ->
   bottom_right (find_corners (before ++ p :: after)) = p).
Proof.
  unfold find_corners. split; intros Hp Hb Ha;
    rewrite fold_left_app; cbn [fold_left].
  - pose proof (corner_fold_min_above before corners_init (point_sum p) Hp Hb) as H1.
    destruct (corner_step_min (fold_left corner_step before corners_init) p)
      as [Hnew _].
    destruct (Hnew H1) as [Hs Ht].
    destruct (corner_fold_keeps_min after
                (corner_step (fold_left corner_step before corners_init) p))
      as [_ Hk].
    + intros r Hr. rewrite Hs. apply Ha, Hr.
    + now rewrite Hk.
  - pose proof (corner_fold_max_below before corners_init (point_sum p) Hp Hb) as H1.
    destruct (corner_step_max (fold_left corner_step before corners_init) p)
      as [Hnew _].
    destruct (Hnew H1) as [Hs Ht].
    destruct (corner_fold_keeps_max after
                (corner_step (fold_left corner_step before corners_init) p))
      as [_ Hk].
    + intros r Hr. rewrite Hs. apply Ha, Hr.
    + now rewrite Hk.
Qed.

(** Two points of sum 60 between the corners of a square, and a second
    point of the least and of the greatest sum: the first of each is
    taken. *)
Lemma corners_are_first_extremes_witness :
  top_left (find_corners
              [mkPoint 50 10; mkPoint 10 10; mkPoint 5 15; mkPoint 50 50])
    = mkPoint 10 10 /\
  bottom_right (find_corners
                  [mkPoint 50 50; mkPoint 10 10; mkPoint 60 40; mkPoint 10 50])
    = mkPoint 50 50.
Proof.
  split.
  - apply (proj1 (corners_are_first_extremes
                    [mkPoint 50 10] [mkPoint 5 15; mkPoint 50 50] (mkPoint 10 10))).
    + vm_compute. reflexivity.
    + intros r [<-|[]]. vm_compute. reflexivity.
    + intros r [<-|[<-|[]]]; vm_compute; discriminate.
  - apply (proj2 (corners_are_first_extremes
                    [] [mkPoint 10 10; mkPoint 60 40; mkPoint 10 50] (mkPoint 50 50))).
    + vm_compute. reflexivity.
    + intros r [].
    + intros r [<-|[<-|[<-|[]]]]; vm_compute; discriminate.
Defined.

(** X5: the greatest sum starts from 0 and not from the least [int]: when
    no point has a positive coordinate sum, no point is taken, and the
    bottom-right corner stays at the origin. *)
Theorem bottom_right_stays_at_origin (pts : list Point) :
  (forall r, In r pts -> point_sum r <= 0) ->
  bottom_right (find_corners pts) = Point_default /\
  max_sum (find_corners pts) = 0.
Proof.
  intros H. unfold find_corners.
  destruct (corner_fold_keeps_max pts corners_init H) as [Hs Hb].
  now rewrite Hs, Hb.
Qed.

(** Four clicks left of and above the image origin: the box reaches from
    the clicked point to the origin. *)
Lemma bottom_right_stays_at_origin_witness :
  let pts := [mkPoint (-3) (-2); mkPoint (-3) (-2); mkPoint (-3) (-2);
              mkPoint (-3) (-2)] in
  bottom_right (find_corners pts) = Point_default /\
  compute_roi_box pts = mkRect (-3) (-2) 3 2.
Proof.
  cbv zeta. split; [|reflexivity].
  apply (bottom_right_stays_at_origin
           [mkPoint (-3) (-2); mkPoint (-3) (-2); mkPoint (-3) (-2);
            mkPoint (-3) (-2)]).
  intros r [<-|[<-|[<-|[<-|[]]]]]; vm_compute; discriminate.
Defined.

(** Each corner is a point of the list or the origin it started as. *)
Lemma corners_from_points (l : list Point) :
  (In (top_left (find_corners l)) l \/ top_left (find_corners l) = Point_default) /\
  (In (bottom_right (find_corners l)) l
   \/ bottom_right (find_corners l) = Point_default).
Proof.
  induction l as [|p l IH] using rev_ind; [cbn; auto|].
  rewrite find_corners_snoc.
  destruct (corner_step_min (find_corners l) p) as [Hn1 Ho1].
  destruct (corner_step_max (find_corners l) p) as [Hn2 Ho2].
  destruct IH as [IH1 IH2]. split.
  - destruct (Z_lt_le_dec (point_sum p) (min_sum (find_corners l))) as [Hl|Hl].
    + destruct (Hn1 Hl) as [_ ->]. left. apply in_or_app. right. left. reflexivity.
    + destruct (Ho1 Hl) as [_ ->].
      destruct IH1 as [H|H]; [left; apply in_or_app; auto|right; exact H].
  - destruct (Z_lt_le_dec (max_sum (find_corners l)) (point_sum p)) as [Hl|Hl].
    + destruct (Hn2 Hl) as [_ ->]. left. apply in_or_app. right. left. reflexivity.
    + destruct (Ho2 Hl) as [_ ->].
      destruct IH2 as [H|H]; [left; apply in_or_app; auto|right; exact H].
Qed.

(** X6: clicks on one vertical or on one horizontal line give an empty
    box. *)
Theorem collinear_clicks_give_empty_box (pts : list Point) :
  pts <> [] ->
  (forall p, In p pts -> 0 <= px p /\ 0 <= py p /\ px p + py p < INT_MAX) ->
  (forall p q, In p pts -> In q pts -> px p = px q) \/
  (forall p q, In p pts -> In q pts -> py p = py q) ->
  rect_empty (compute_roi_box pts) = true.
Proof.
  intros Hne Hpts Hline.
  destruct (find_corners_extremes pts Hne Hpts) as (Hp & Hq & _ & _).
  unfold compute_roi_box, rect_empty, Rect_of_points. cbn [rwidth rheight].
  apply orb_true_iff.
  destruct Hline as [H|H]; [left|right]; apply Z.leb_le;
    rewrite (H _ _ Hp Hq); lia.
Qed.

(** Four clicks down one column. *)
Lemma collinear_clicks_give_empty_box_witness :
  compute_roi_box [mkPoint 5 1; mkPoint 5 9; mkPoint 5 3; mkPoint 5 4]
    = mkRect 5 1 0 8 /\
  rect_empty (compute_roi_box
                [mkPoint 5 1; mkPoint 5 9; mkPoint 5 3; mkPoint 5 4]) = true.
Proof.
  split; [reflexivity|].
  apply collinear_clicks_give_empty_box.
  - discriminate.
  - intros p [<-|[<-|[<-|[<-|[]]]]]; cbn; unfold INT_MAX; lia.
  - left. intros p q [<-|[<-|[<-|[<-|[]]]]] [<-|[<-|[<-|[<-|[]]]]]; reflexivity.
Defined.

(** ** Selections that fit the frame *)

Lemma in_firstn_in (n : nat) (l : list Point) (p : Point) :
  In p (firstn n l) -> In p l.
Proof.
  revert l. induction n as [|n IH]; intros [|a l]; cbn; try tauto.
  intros [H|H]; [left; exact H|right; apply IH, H].
Qed.

Lemma submat_of_points (m : Mat) (p q : Point) :
  in_frame m p -> in_frame m q ->
  exists roi, submat m (Rect_of_points p q) = Some roi.
Proof.
  intros [Hpx Hpy] [Hqx Hqy]. unfold submat, Rect_of_points.
  cbn [rx ry rwidth rheight].
  replace (0 <=? Z.min (px p) (px q)) with true by (symmetry; apply Z.leb_le; lia).
  replace (0 <=? Z.max (px p) (px q) - Z.min (px p) (px q)) with true
    by (symmetry; apply Z.leb_le; lia).
  replace (Z.min (px p) (px q) + (Z.max (px p) (px q) - Z.min (px p) (px q))
           <=? mat_cols m) with true by (symmetry; apply Z.leb_le; lia).
  replace (0 <=? Z.min (py p) (py q)) with true by (symmetry; apply Z.leb_le; lia).
  replace (0 <=? Z.max (py p) (py q) - Z.min (py p) (py q)) with true
    by (symmetry; apply Z.leb_le; lia).
  replace (Z.min (py p) (py q) + (Z.max (py p) (py q) - Z.min (py p) (py q))
           <=? mat_rows m) with true by (symmetry; apply Z.leb_le; lia).
  cbn [andb]. eauto.
Qed.

Section Fit.

Variable cv : OpenCV.
Variable pending : list MouseEvent.

(** X7: when the points recorded before a selection and the left clicks
    that arrive during it all lie on pixels of the frame the selection
    starts on, the box lies inside that frame and the selection does not
    fail on the bounds check of the sub-image. *)
Theorem frame_roi_fits_frame (g : Globals) (ws : list Wait) :
  (forall p, In p (roi_points g) -> in_frame (frame g) p) ->
  (forall p, In p (left_clicks (all_mouse ws)) -> in_frame (frame g) p) ->
  fst (fst (fst (frame_roi cv g ws pending))) <> Raised.
Proof.
  intros Hold Hnew. unfold frame_roi. cbn [frame].
  pose proof (await_points_record_done cv pending ws
                (mkGlobals (frame g) (roi_points g) true) eq_refl) as Hp.
  pose proof (await_points_left cv pending ws
                (mkGlobals (frame g) (roi_points g) true)) as E.
  destruct (await_points cv _ ws pending) as [[[done g1] ws1] t1].
  cbn [fst snd roi_points] in Hp, E.
  destruct done; cbn [negb]; [|discriminate].
  specialize (Hp eq_refl). specialize (E eq_refl).
  assert (Hall : forall p, In p (roi_points g1) -> in_frame (frame g) p).
  { intros p Hin. rewrite Hp in Hin. apply in_app_or in Hin.
    destruct Hin as [Hin|Hin]; [apply Hold, Hin|].
    apply Hnew. eapply in_firstn_in. exact Hin. }
  assert (Horigin : in_frame (frame g) Point_default).
  { destruct (roi_points g1) as [|a l] eqn:El; [cbn in E; lia|].
    destruct (Hall a (or_introl eq_refl)) as [Hx Hy].
    unfold in_frame, Point_default. cbn. lia. }
  destruct (corners_from_points (roi_points g1)) as [Htl Hbr].
  assert (H1 : in_frame (frame g) (top_left (find_corners (roi_points g1))))
    by (destruct Htl as [H|H]; [apply Hall, H|rewrite H; exact Horigin]).
  assert (H2 : in_frame (frame g) (bottom_right (find_corners (roi_points g1))))
    by (destruct Hbr as [H|H]; [apply Hall, H|rewrite H; exact Horigin]).
  destruct (submat_of_points (frame g) _ _ H1 H2) as [roi Hroi].
  unfold compute_roi_box. rewrite Hroi.
  destruct (hsv_histogram cv roi); discriminate.
Qed.

End Fit.

(** Four clicks on a 6 x 6 frame return; a click right of the frame makes
    the selection fail. *)
Lemma frame_roi_fits_frame_witness :
  let g := mkGlobals Sample.f0 [] false in
  fst (fst (fst (frame_roi Sample.cv g (tl Sample.select_square) []))) <> Raised /\
  fst (fst (fst (frame_roi Sample.cv g
     [mkWait [Sample.click 1 1; Sample.click 1 4;
              Sample.click 4 1; Sample.click 9 4] 0] [])))
    = Raised.
Proof.
  cbv zeta. split; [|reflexivity].
  apply (frame_roi_fits_frame Sample.cv [] (mkGlobals Sample.f0 [] false)
           (tl Sample.select_square)).
  - intros p [].
  - intros p [<-|[<-|[<-|[<-|[]]]]]; vm_compute; repeat split; discriminate.
Defined.

(** ** Keys *)

Lemma to_char_low_byte (n c : Z) :
  0 <= c < 128 -> (to_char n = c <-> n mod 256 = c).
Proof.
  intros Hc. unfold to_char, wrap_signed.
  change (2 ^ (8 - 1)) with 128. change (2 ^ 8) with 256.
  rewrite <- (Z.add_mod_idemp_l n 128 256) by lia.
  pose proof (Z.mod_pos_bound n 256 ltac:(lia)) as Hr.
  set (r := n mod 256) in *.
  destruct (Z_lt_le_dec r 128) as [H|H].
  - rewrite Z.mod_small by lia. lia.
  - replace ((r + 128) mod 256) with (r - 128).
    + lia.
    + apply (Z.mod_unique_pos _ _ 1); lia.
Qed.

Section Keys.

Variable cv : OpenCV.
Variable pending : list MouseEvent.

(** X8: a round with a frame in which the key code's low byte is that of
    [q] ends the loop, in any state and whatever the higher bits of the
    code are; the frames that follow are not read, box and histogram are
    left as they are, and [main] returns 0 after releasing the camera and
    closing the windows. *)
Theorem quit_key_exits
  (s : MainState) (f : Mat) (rest : list Mat) (w : Wait) (ws : list Wait) :
  mat_empty f = false ->
  w_key w mod 256 = char_q ->
  fst (fst (main_loop cv s (f :: rest) (w :: ws) pending)) = Exited /\
  main_loop cv s (f :: rest) (w :: ws) pending = main_loop cv s [f] [w] pending /\
  roi_box (snd (fst (main_loop cv s (f :: rest) (w :: ws) pending))) = roi_box s /\
  roi_hist (snd (fst (main_loop cv s (f :: rest) (w :: ws) pending))) = roi_hist s /\
  forall parser,
    fst (fst (main cv parser (f :: rest) (w :: ws) pending)) = Some 0 /\
    exists t, snd (main cv parser (f :: rest) (w :: ws) pending)
              = t ++ [EvRelease; EvDestroyAllWindows].
Proof.
  intros Hf Hk.
  assert (Hq : to_char (w_key w) = char_q)
    by (apply to_char_low_byte; [unfold char_q; lia|exact Hk]).
  assert (Hbody : forall s0 ws0,
            exists g t, loop_body cv s0 f (w :: ws0) pending
                        = (Stop Exited (mkMainState g (roi_box s0) (roi_hist s0)), t) /\
                        loop_body cv s0 f (w :: ws0) pending = loop_body cv s0 f [w] pending).
  { intros s0 ws0. unfold loop_body. rewrite Hf.
    destruct (if negb (rect_empty (roi_box s0)) then _ else _) as [g1 t1].
    destruct (dispatch cv (w_mouse w) g1) as [g2 t3].
    unfold selection_guard. rewrite Hq. cbn [Z.eqb char_q char_i Pos.eqb andb].
    eauto. }
  assert (Hloop : forall s0 ws0,
            exists g t, main_loop cv s0 (f :: rest) (w :: ws0) pending
                        = (Exited, mkMainState g (roi_box s0) (roi_hist s0), t) /\
                        main_loop cv s0 (f :: rest) (w :: ws0) pending
                        = main_loop cv s0 [f] [w] pending).
  { intros s0 ws0. destruct (Hbody s0 ws0) as (g & t & E & E').
    exists g, t. rewrite !main_loop_cons, <- E', E. auto. }
  destruct (Hloop s ws) as (g & t & E & E').
  repeat split; try (rewrite E; reflexivity); try exact E'.
  - unfold main. destruct (get_arguments parser String.EmptyString) as [vp t0].
    destruct (Hloop main_init ws) as (g0 & t2 & E0 & _). rewrite E0. reflexivity.
  - unfold main. destruct (get_arguments parser String.EmptyString) as [vp t0].
    destruct (Hloop main_init ws) as (g0 & t2 & E0 & _). rewrite E0.
    cbn [snd]. eexists. rewrite !app_assoc. reflexivity.
Qed.

End Keys.

(** The key code of [q] with a modifier bit set above the low byte. *)
Lemma quit_key_exits_witness :
  main Sample.cv Sample.no_args [Sample.f0; Sample.f0] [mkWait [] 1048689] []
  = (Some 0,
     mkMainState (mkGlobals Sample.f0 [] false) Rect_default [],
     [EvOpenDevice 0; EvImshow Sample.f0; EvRelease; EvDestroyAllWindows]) /\
  fst (fst (main_loop Sample.cv main_init [Sample.f0; Sample.f0]
              [mkWait [] 1048689] [])) = Exited.
Proof.
  split; [reflexivity|].
  apply (quit_key_exits Sample.cv [] main_init Sample.f0 [Sample.f0]
           (mkWait [] 1048689) []); reflexivity.
Defined.

(** ** The three phases of a run *)

Section Phases.

Variable cv : OpenCV.
Variable pending : list MouseEvent.

(** X9: without the selection key nothing is ever selected.  From the
    start of [main], as long as no key code has the low byte of [i], the
    clicks the window delivers are dropped, point list, box and histogram
    stay empty, the tracking primitive is not called, and the window shows
    the camera frames as they come. *)
Theorem idle_until_selection_key
  (frames : list Mat) (s : MainState) (ws : list Wait) :
  idle s ->
  (forall w, In w ws -> w_key w mod 256 <> char_i) ->
  idle (snd (fst (main_loop cv s frames ws pending))) /\
  exists n, snd (main_loop cv s frames ws pending) = map EvImshow (firstn n frames).
Proof.
  revert s ws. induction frames as [|f frames IH]; intros s ws Hs Hk.
  - split; [exact Hs|exists 0%nat; reflexivity].
  - rewrite main_loop_cons. destruct Hs as (Hm & Hp & Hb & Hh).
    unfold loop_body. rewrite Hb, Hm, Hp. cbn [rect_empty Rect_default rwidth
      rheight Z.leb Z.compare orb negb].
    destruct (mat_empty f).
    { split; [repeat split; assumption|exists 0%nat; reflexivity]. }
    destruct ws as [|w ws'].
    { rewrite dispatch_idle by reflexivity.
      split; [repeat split; assumption|exists 1%nat; reflexivity]. }
    rewrite dispatch_idle by reflexivity.
    assert (Hi : to_char (w_key w) <> char_i).
    { intros H. apply to_char_low_byte in H; [|unfold char_i; lia].
      apply (Hk w (or_introl eq_refl) H). }
    unfold selection_guard. apply Z.eqb_neq in Hi. rewrite Hi. cbn [andb].
    destruct (to_char (w_key w) =? char_q).
    { split; [repeat split; assumption|exists 1%nat; reflexivity]. }
    match goal with
    | |- context [main_loop cv ?s1 frames ws'] =>
        destruct (IH s1 ws') as (Hidle & n & Hn);
          [repeat split; (reflexivity || assumption)
          |intros w0 Hw0; apply Hk; right; exact Hw0
          |destruct (main_loop cv s1 frames ws' pending) as [[st s2] t2]]
    end.
    cbn [fst snd] in *.
    split; [exact Hidle|]. exists (S n). rewrite Hn. reflexivity.
Qed.

(** X10: once a non-empty box is selected, every round that gets a frame
    does the same two things and nothing else: it searches the back
    projection of the frame just grabbed, against the histogram of the
    selection, from the selected box, and it shows that frame with the
    outline of the result drawn on it. *)
Theorem tracking_rounds
  (frames : list Mat) (s : MainState) (ws : list Wait) :
  rect_empty (roi_box s) = false ->
  (4 <= length (roi_points (globals s)))%nat ->
  exists n,
    (n <= length frames)%nat /\
    snd (main_loop cv s frames ws pending)
    = flat_map (tracked_round cv (roi_box s) (roi_hist s)) (firstn n frames).
Proof.
  revert s ws. induction frames as [|f frames IH]; intros s ws He H4.
  - exists 0%nat. split; [apply Nat.le_refl|reflexivity].
  - rewrite main_loop_cons. unfold loop_body. rewrite He. cbn [negb].
    destruct (mat_empty f).
    { exists 0%nat. split; [apply Nat.le_0_l|reflexivity]. }
    unfold apply_camshift. cbn [frame roi_points input_mode].
    destruct ws as [|w ws'].
    { rewrite dispatch_full by exact H4.
      exists 1%nat. split; [cbn; lia|reflexivity]. }
    rewrite dispatch_full by exact H4.
    rewrite selection_guard_full by exact H4.
    destruct (to_char (w_key w) =? char_q).
    { exists 1%nat. split; [cbn; lia|reflexivity]. }
    match goal with
    | |- context [main_loop cv ?s1 frames ws'] =>
        destruct (IH s1 ws' He H4) as (n & Hn & Ht);
        destruct (main_loop cv s1 frames ws' pending) as [[st s2] t2]
    end.
    cbn [fst snd roi_box roi_hist] in *.
    exists (S n). split; [cbn; lia|]. rewrite Ht. reflexivity.
Qed.

Lemma loop_body_idle (s : MainState) (f : Mat) (ws : list Wait) :
  idle s ->
  match fst (loop_body cv s f ws pending) with
  | Continue s1 _ => idle s1 \/ selected_on cv [f] s1
  | Stop _ s1 => roi_box s1 = Rect_default /\ roi_hist s1 = []
  end.
Proof.
  intros (Hm & Hp & Hb & Hh). unfold loop_body. rewrite Hb, Hm, Hp.
  cbn [rect_empty Rect_default rwidth rheight Z.leb Z.compare orb negb].
  destruct (mat_empty f); [cbn; auto|].
  destruct ws as [|w ws']; [rewrite dispatch_idle by reflexivity; cbn; auto|].
  rewrite dispatch_idle by reflexivity.
  destruct (selection_guard (to_char (w_key w)) (mkGlobals f [] false)).
  - destruct (frame_roi cv (mkGlobals f [] false) ws' pending)
      as [[[o g3] ws3] t4] eqn:E.
    destruct o as [[hist box]| | |]; cbn [fst]; auto.
    right.
    destruct (frame_roi_returned cv pending _ _ _ _ _ _ _ E) as (_ & _ & Hbox & Hhist & _).
    assert (H4 : length (roi_points g3) = 4%nat).
    { apply (frame_roi_returns_four cv pending (mkGlobals f [] false) ws' hist box g3 ws3 t4);
        [cbn; lia|exact E]. }
    unfold selected_on. cbn [globals roi_box roi_hist frame] in *.
    repeat split; try assumption.
    exists f. split; [left; reflexivity|exact Hhist].
  - destruct (to_char (w_key w) =? char_q); cbn [fst]; auto.
    left. repeat split; assumption.
Qed.

(** X11: box and histogram go together.  At every point of every run of
    [main], either both still have their initial empty values, or exactly
    four points are recorded, the box is the box of these four points,
    and the histogram is the histogram of that box on one of the frames
    the camera delivered, as delivered. *)
Theorem box_and_histogram_together
  (parser : ParsedArgs) (frames : list Mat) (ws : list Wait) :
  let s := snd (fst (main cv parser frames ws pending)) in
  (roi_box s = Rect_default /\ roi_hist s = []) \/ selected_on cv frames s.
Proof.
  assert (Hloop : forall fs s0 ws0, idle s0 ->
            let s := snd (fst (main_loop cv s0 fs ws0 pending)) in
            (roi_box s = Rect_default /\ roi_hist s = []) \/ selected_on cv fs s).
  { induction fs as [|f fs IH]; intros s0 ws0 Hs; cbv zeta.
    - left. destruct Hs as (_ & _ & Hb & Hh). cbn. auto.
    - rewrite main_loop_cons. pose proof (loop_body_idle s0 f ws0 Hs) as Hstep.
      destruct (loop_body cv s0 f ws0 pending) as [[s1 ws1|st s1] t1]; cbn [fst] in Hstep.
      + destruct Hstep as [Hi|(H4 & Hbox & f' & Hin & Hhist)].
        * specialize (IH s1 ws1 Hi). cbv zeta in IH.
          destruct (main_loop cv s1 fs ws1 pending) as [[st s2] t2]. cbn [fst snd] in *.
          destruct IH as [IH|(H4 & Hbox & f' & Hin & Hhist)]; [left; exact IH|].
          right. repeat split; try assumption.
          exists f'. split; [right; exact Hin|exact Hhist].
        * destruct (main_loop_selected cv pending fs s1 ws1) as (Hp & Hb & Hh); [lia|].
          destruct (main_loop cv s1 fs ws1 pending) as [[st s2] t2]. cbn [fst snd] in *.
          right. unfold selected_on. rewrite Hp, Hb, Hh.
          repeat split; try assumption.
          exists f'. split; [|exact Hhist].
          destruct Hin as [<-|[]]. left. reflexivity.
      + left. exact Hstep. }
  cbv zeta. unfold main.
  destruct (get_arguments parser String.EmptyString) as [vp t0].
  specialize (Hloop frames main_init ws).
  destruct (main_loop cv main_init frames ws pending) as [[st s] t2].
  cbn [fst snd] in Hloop.
  assert (Hs : (roi_box s = Rect_default /\ roi_hist s = []) \/ selected_on cv frames s)
    by (apply Hloop; repeat split; reflexivity).
  destruct st; exact Hs.
Qed.

End Phases.

(** ** What the frame loop can emit *)

Section LoopEvents.

Variable cv : OpenCV.
Variable pending : list MouseEvent.

Lemma select_roi_events (event x y : Z) (g : Globals) :
  Forall is_loop_event (snd (select_roi cv event x y g)).
Proof.
  unfold select_roi. destruct (_ && _); cbn [snd]; repeat constructor.
Qed.

Lemma dispatch_events (evs : list MouseEvent) (g : Globals) :
  Forall is_loop_event (snd (dispatch cv evs g)).
Proof.
  revert g. induction evs as [|e evs IH]; intros g; cbn [dispatch];
    [constructor|].
  pose proof (select_roi_events (me_event e) (me_x e) (me_y e) g) as H1.
  destruct (select_roi cv _ _ _ g) as [g1 t1]. specialize (IH g1).
  destruct (dispatch cv evs g1) as [g2 t2]. cbn [snd] in *.
  apply Forall_app. auto.
Qed.

Lemma await_points_events (ws : list Wait) (g : Globals) :
  Forall is_loop_event (snd (await_points cv g ws pending)).
Proof.
  revert g. induction ws as [|w ws IH]; intros g; cbn [await_points];
    destruct (length (roi_points g) <? 4)%nat; try constructor.
  - pose proof (dispatch_events pending g) as H1.
    destruct (dispatch cv pending g) as [g1 t1]. cbn [snd] in *.
    constructor; [exact I|exact H1].
  - pose proof (dispatch_events (w_mouse w) g) as H1.
    destruct (dispatch cv (w_mouse w) g) as [g1 t1]. specialize (IH g1).
    destruct (await_points cv g1 ws pending) as [[[done g2] ws2] t2].
    cbn [snd] in *.
    constructor; [exact I|]. apply Forall_app. auto.
Qed.

Lemma frame_roi_events (g : Globals) (ws : list Wait) :
  Forall is_loop_event (snd (frame_roi cv g ws pending)).
Proof.
  destruct (frame_roi_loop cv pending g ws) as (_ & _ & -> & _).
  apply await_points_events.
Qed.

Lemma loop_body_events (s : MainState) (f : Mat) (ws : list Wait) :
  Forall is_loop_event (snd (loop_body cv s f ws pending)).
Proof.
  unfold loop_body. destruct (mat_empty f); [constructor|].
  set (r1 := if negb (rect_empty (roi_box s)) then _ else _).
  assert (H1 : Forall is_loop_event (snd r1)).
  { unfold r1. destruct (negb (rect_empty (roi_box s)));
      cbn [snd apply_camshift]; repeat constructor. }
  destruct r1 as [g1 t1]. cbn [snd] in H1.
  assert (H2 : Forall is_loop_event (t1 ++ [EvImshow (frame g1)])).
  { apply Forall_app. split; [exact H1|repeat constructor]. }
  destruct ws as [|w ws'].
  { pose proof (dispatch_events pending g1) as H3.
    destruct (dispatch cv pending g1) as [g2 t3]. cbn [snd] in *.
    apply Forall_app. auto. }
  pose proof (dispatch_events (w_mouse w) g1) as H3.
  destruct (dispatch cv (w_mouse w) g1) as [g2 t3]. cbn [snd] in H3.
  destruct (selection_guard (to_char (w_key w)) g2).
  - pose proof (frame_roi_events g2 ws') as H4.
    destruct (frame_roi cv g2 ws' pending) as [[[o g3] ws3] t4]. cbn [snd] in H4.
    destruct o as [[hist box]| | |]; cbn [snd];
      apply Forall_app; split; try exact H2; apply Forall_app; auto.
  - destruct (to_char (w_key w) =? char_q); cbn [snd];
      apply Forall_app; auto.
Qed.

Lemma main_loop_events (frames : list Mat) (s : MainState) (ws : list Wait) :
  Forall is_loop_event (snd (main_loop cv s frames ws pending)).
Proof.
  revert s ws. induction frames as [|f frames IH]; intros s ws; [constructor|].
  rewrite main_loop_cons. pose proof (loop_body_events s f ws) as H1.
  destruct (loop_body cv s f ws pending) as [[s1 ws1|st s1] t1]; cbn [snd] in H1.
  - specialize (IH s1 ws1).
    destruct (main_loop cv s1 frames ws1 pending) as [[st s2] t2]. cbn [snd] in *.
    apply Forall_app. auto.
  - exact H1.
Qed.

(** X12: [main] opens exactly one source, before the first frame is
    asked for: the video file when a path is given without the help flag,
    camera 0 when no path is given, and camera 0 also when the help flag
    is given together with a path. *)
Theorem main_opens_one_source
  (parser : ParsedArgs) (frames : list Mat) (ws : list Wait) :
  let source :=
    if has_help parser || String.eqb (arg_video parser) String.EmptyString
    then EvOpenDevice 0
    else EvOpenFile (arg_video parser) in
  exists rest,
    snd (main cv parser frames ws pending)
    = (if has_help parser then [EvPrintMessage] else []) ++ source :: rest /\
    Forall (fun e => is_open e = false) rest.
Proof.
  cbv zeta. unfold main, get_arguments.
  pose proof (main_loop_events frames main_init ws) as Hl.
  destruct (main_loop cv main_init frames ws pending) as [[st s] t2]. cbn [snd] in Hl.
  assert (Hno : Forall (fun e => is_open e = false) t2).
  { eapply Forall_impl; [|exact Hl]. intros [] H; try reflexivity; destruct H. }
  assert (Hend : Forall (fun e => is_open e = false)
                        (t2 ++ [EvRelease; EvDestroyAllWindows])).
  { apply Forall_app. split; [exact Hno|repeat constructor]. }
  destruct (has_help parser); cbn [orb].
  - change (String.eqb String.EmptyString String.EmptyString) with true.
    cbn iota.
    destruct st; cbn [snd app]; eexists; (split; [reflexivity|]);
      try exact Hend; rewrite ?app_nil_r; exact Hno.
  - destruct (String.eqb (arg_video parser) String.EmptyString);
      destruct st; cbn [snd app]; eexists; (split; [reflexivity|]);
      try exact Hend; rewrite ?app_nil_r; exact Hno.
Qed.

(** X13: a selection that does not get its four clicks holds the program
    for good.  When the selection key is pressed in the idle state and
    fewer than four left clicks follow, the run is still inside the wait
    loop of the selection when the input ends: the frames the camera has
    ready are not read, nothing is tracked, box and histogram stay empty,
    and [main] has not returned. *)
Theorem unfinished_selection_holds_loop
  (s : MainState) (f : Mat) (rest : list Mat) (w : Wait) (ws : list Wait)
  (parser : ParsedArgs) :
  idle s ->
  mat_empty f = false ->
  w_key w mod 256 = char_i ->
  (length (left_clicks (all_mouse ws)) < 4)%nat ->
  fst (fst (main_loop cv s (f :: rest) (w :: ws) pending)) = Pending /\
  main_loop cv s (f :: rest) (w :: ws) pending = main_loop cv s [f] (w :: ws) pending /\
  roi_box (snd (fst (main_loop cv s (f :: rest) (w :: ws) pending))) = Rect_default /\
  camshift_calls (snd (main_loop cv s (f :: rest) (w :: ws) pending)) = [] /\
  fst (fst (main cv parser (f :: rest) (w :: ws) pending)) = None.
Proof.
  intros Hs Hf Hk Hc.
  assert (Hi : to_char (w_key w) = char_i)
    by (apply to_char_low_byte; [unfold char_i; lia|exact Hk]).
  assert (Hbody : forall s0, idle s0 ->
            exists g t, loop_body cv s0 f (w :: ws) pending
                        = (Stop Pending (mkMainState g Rect_default (roi_hist s0)), t)).
  { intros s0 (Hm & Hp & Hb & Hh). unfold loop_body.
    rewrite Hf, Hb, Hm, Hp.
    cbn [rect_empty Rect_default rwidth rheight Z.leb Z.compare orb negb].
    rewrite dispatch_idle by reflexivity.
    unfold selection_guard. rewrite Hi, Z.eqb_refl. cbn [andb roi_points length].
    change (0 <? 4)%nat with true. cbn iota.
    pose proof (proj2 (proj1 (frame_roi_blocked cv pending (mkGlobals f [] false) ws)) Hc)
      as Hblk.
    destruct (frame_roi cv (mkGlobals f [] false) ws pending) as [[[o g3] ws3] t4].
    cbn [fst] in Hblk. subst o. eauto. }
  assert (Hloop : forall s0, idle s0 ->
            exists g t, main_loop cv s0 (f :: rest) (w :: ws) pending
                        = (Pending, mkMainState g Rect_default (roi_hist s0), t) /\
                        main_loop cv s0 [f] (w :: ws) pending
                        = (Pending, mkMainState g Rect_default (roi_hist s0), t)).
  { intros s0 H0. destruct (Hbody s0 H0) as (g & t & E).
    exists g, t. rewrite !main_loop_cons, E. auto. }
  destruct (Hloop s Hs) as (g & t & E & E1).
  repeat split.
  - rewrite E. reflexivity.
  - rewrite E, E1. reflexivity.
  - rewrite E. reflexivity.
  - pose proof (loop_body_calls cv pending s f (w :: ws)) as Hlc.
    destruct (Hbody s Hs) as (g' & t' & E').
    rewrite main_loop_cons, E'. rewrite E' in Hlc. cbn [snd] in *.
    rewrite Hlc, Hf. destruct Hs as (_ & _ & Hb & _). rewrite Hb. reflexivity.
  - unfold main. destruct (get_arguments parser String.EmptyString) as [vp t0].
    destruct (Hloop main_init) as (g0 & t2 & E0 & _);
      [repeat split; reflexivity|].
    rewrite E0. reflexivity.
Qed.

End LoopEvents.

(** ** The selection of an empty box *)

Lemma submat_empty (m : Mat) (box : Rect) (roi : Mat) :
  submat m box = Some roi -> rect_empty box = true -> mat_empty roi = true.
Proof.
  intros Hs He. destruct (mat_empty roi) eqn:E; [reflexivity|].
  rewrite (submat_not_empty m box roi Hs E) in He. discriminate He.
Qed.

Section EmptySelection.

Variable cv : OpenCV.
Variable pending : list MouseEvent.

(** A selection that leaves its wait loop with the points of an empty box
    ends in one of the two library errors. *)
Lemma frame_roi_empty_box (g : Globals) (ws : list Wait) :
  (4 <= length (roi_points g) + length (left_clicks (all_mouse ws)))%nat ->
  rect_empty (compute_roi_box
                (roi_points g ++ firstn (4 - length (roi_points g))
                                        (left_clicks (all_mouse ws)))) = true ->
  fst (fst (fst (frame_roi cv g ws pending))) = Raised \/
  fst (fst (fst (frame_roi cv g ws pending))) = RaisedEmpty.
Proof.
  intros Hn He. unfold frame_roi. cbn [frame].
  pose proof (await_points_record_done cv pending ws
                (mkGlobals (frame g) (roi_points g) true) eq_refl) as Hp.
  destruct (await_points_record cv pending ws
              (mkGlobals (frame g) (roi_points g) true) eq_refl) as [_ Hd].
  destruct (await_points cv _ ws pending) as [[[done g1] ws1] t1].
  cbn [fst snd roi_points] in Hp, Hd.
  destruct done; cbn [negb].
  - rewrite (Hp eq_refl).
    destruct (submat (frame g) _) as [roi|] eqn:Es; [|left; reflexivity].
    unfold hsv_histogram, cvtColor_checked.
    rewrite (submat_empty _ _ _ Es He). right. reflexivity.
  - exfalso. assert (H : false = false) by reflexivity.
    apply Hd in H. lia.
Qed.

(** C10, as the code has it: a selection whose four points give an empty
    box does not complete.  The conversion of the empty sub-image raises
    (or, for points outside the frame, the extraction of the sub-image
    does), [main] has no handler, and the program ends inside the
    selection: the frames that follow are not read or shown, the box of
    [main] stays empty, the tracking primitive is not called and [main]
    does not return.  A selection that does complete has a box of
    non-zero area; and a round that finds the box empty makes no call of
    the tracking primitive. *)
Theorem empty_selection_ends_program
  (s : MainState) (f : Mat) (rest : list Mat) (w : Wait) (ws : list Wait)
  (parser : ParsedArgs) :
  idle s ->
  mat_empty f = false ->
  w_key w mod 256 = char_i ->
  (4 <= length (left_clicks (all_mouse ws)))%nat ->
  rect_empty (compute_roi_box (firstn 4 (left_clicks (all_mouse ws)))) = true ->
  fst (fst (main_loop cv s (f :: rest) (w :: ws) pending)) = Aborted /\
  main_loop cv s (f :: rest) (w :: ws) pending
    = main_loop cv s [f] (w :: ws) pending /\
  roi_box (snd (fst (main_loop cv s (f :: rest) (w :: ws) pending)))
    = Rect_default /\
  camshift_calls (snd (main_loop cv s (f :: rest) (w :: ws) pending)) = [] /\
  fst (fst (main cv parser (f :: rest) (w :: ws) pending)) = None /\
  (forall g ws0 hist box g' ws' t,
     frame_roi cv g ws0 pending = (Returned (hist, box), g', ws', t) ->
     rect_empty box = false) /\
  (forall s0 f0 ws0,
     rect_empty (roi_box s0) = true ->
     camshift_calls (snd (loop_body cv s0 f0 ws0 pending)) = []).
Proof.
  intros Hs Hf Hk Hn He.
  assert (Hi : to_char (w_key w) = char_i)
    by (apply to_char_low_byte; [unfold char_i; lia|exact Hk]).
  assert (Hbody : forall s0, idle s0 ->
            exists g t, loop_body cv s0 f (w :: ws) pending
                        = (Stop Aborted (mkMainState g Rect_default (roi_hist s0)), t)).
  { intros s0 (Hm & Hp & Hb & Hh). unfold loop_body.
    rewrite Hf, Hb, Hm, Hp.
    cbn [rect_empty Rect_default rwidth rheight Z.leb Z.compare orb negb].
    rewrite dispatch_idle by reflexivity.
    unfold selection_guard. rewrite Hi, Z.eqb_refl. cbn [andb roi_points length].
    change (0 <? 4)%nat with true. cbn iota.
    pose proof (frame_roi_empty_box (mkGlobals f [] false) ws Hn He) as Hout.
    destruct (frame_roi cv (mkGlobals f [] false) ws pending)
      as [[[o g3] ws3] t4].
    cbn [fst] in Hout. destruct Hout as [-> | ->]; eauto. }
  assert (Hloop : forall s0, idle s0 ->
            exists g t, main_loop cv s0 (f :: rest) (w :: ws) pending
                        = (Aborted, mkMainState g Rect_default (roi_hist s0), t) /\
                        main_loop cv s0 [f] (w :: ws) pending
                        = (Aborted, mkMainState g Rect_default (roi_hist s0), t)).
  { intros s0 H0. destruct (Hbody s0 H0) as (g & t & E).
    exists g, t. rewrite !main_loop_cons, E. auto. }
  destruct (Hloop s Hs) as (g & t & E & E1).
  split; [rewrite E; reflexivity|].
  split; [rewrite E, E1; reflexivity|].
  split; [rewrite E; reflexivity|].
  split.
  { pose proof (loop_body_calls cv pending s f (w :: ws)) as Hlc.
    destruct (Hbody s Hs) as (g' & t' & E').
    rewrite main_loop_cons, E'. rewrite E' in Hlc. cbn [snd] in *.
    rewrite Hlc, Hf. destruct Hs as (_ & _ & Hb & _). rewrite Hb. reflexivity. }
  split.
  { unfold main. destruct (get_arguments parser String.EmptyString) as [vp t0].
    destruct (Hloop main_init) as (g0 & t2 & E0 & _);
      [repeat split; reflexivity|].
    rewrite E0. reflexivity. }
  split.
  { intros g0 ws0 hist box g' ws' t0 H.
    exact (frame_roi_returned_box cv pending g0 ws0 hist box g' ws' t0 H). }
  intros s0 f0 ws0 H0. rewrite loop_body_calls, H0.
  destruct (mat_empty f0); reflexivity.
Qed.

End EmptySelection.

(** Four clicks on one pixel, then two more frames. *)
Lemma empty_selection_ends_program_witness :
  let four := [Sample.click 2 2; Sample.click 2 2; Sample.click 2 2;
               Sample.click 2 2] in
  compute_roi_box (left_clicks four) = mkRect 2 2 0 0 /\
  fst (fst (main_loop Sample.cv main_init [Sample.f0; Sample.f0; Sample.f0]
              [mkWait [] char_i; mkWait four 0; Sample.no_key] [])) = Aborted /\
  fst (fst (main Sample.cv Sample.no_args [Sample.f0; Sample.f0; Sample.f0]
              [mkWait [] char_i; mkWait four 0; Sample.no_key] [])) = None.
Proof.
  cbv zeta. split; [reflexivity|].
  destruct (empty_selection_ends_program Sample.cv [] main_init Sample.f0
              [Sample.f0; Sample.f0] (mkWait [] char_i)
              [mkWait [Sample.click 2 2; Sample.click 2 2; Sample.click 2 2;
                       Sample.click 2 2] 0; Sample.no_key]
              Sample.no_args)
    as (Hst & _ & _ & _ & Hmain & _).
  - repeat split; reflexivity.
  - reflexivity.
  - reflexivity.
  - vm_compute. repeat constructor.
  - reflexivity.
  - split; [exact Hst|exact Hmain].
Defined.

(** C10 as worded fails.  Four clicks on the pixel (2,2) give the empty
    box (2,2,0,0); the selection does not complete, [main] does not
    return, and the frame the camera delivers next is never shown. *)
Lemma empty_selection_does_not_complete :
  let later := Sample.plain (90, 0, 0) in
  let r := main Sample.cv Sample.no_args [Sample.f0; later; later]
             (Sample.select_pixel ++ [Sample.no_key; Sample.no_key]) [] in
  compute_roi_box [mkPoint 2 2; mkPoint 2 2; mkPoint 2 2; mkPoint 2 2]
    = mkRect 2 2 0 0 /\
  ~ completes_with_empty_box Sample.cv (mkGlobals Sample.f0 [] false)
      (tl Sample.select_pixel) [] /\
  fst (fst r) = None /\
  ~ In (EvImshow later) (snd r).
Proof.
  cbv zeta. split; [reflexivity|]. split; [|split; [reflexivity|]].
  - intros (hist & box & g' & ws' & t & E & _). vm_compute in E. discriminate E.
  - vm_compute. intros H.
    repeat (destruct H as [H|H]; [discriminate H|]). exact H.
Qed.

(** Four clicks that arrive while [waitKey(0)] waits for a key that does
    not come: all four are recorded, and the selection is still held. *)
Example four_pending_clicks_hold_selection :
  let r := frame_roi Sample.cv (mkGlobals Sample.f0 [] false) []
             [Sample.click 1 1; Sample.click 1 4; Sample.click 4 1;
              Sample.click 4 4] in
  fst (fst (fst r)) = Blocked /\
  roi_points (snd (fst (fst r)))
    = [mkPoint 1 1; mkPoint 1 4; mkPoint 4 1; mkPoint 4 4].
Proof. split; reflexivity. Qed.

(** ** Sample runs of the further properties *)

(** One point recorded already; a mouse move, a right click and five left
    clicks arrive: the first three left clicks are recorded, with three
    redraws. *)
Lemma recorded_points_are_first_left_clicks_witness :
  let g := mkGlobals Sample.f0 [mkPoint 0 0] true in
  let evs := [mkMouseEvent 0 3 3; Sample.click 1 1; mkMouseEvent 2 2 2;
              Sample.click 1 4; Sample.click 4 1; Sample.click 4 4;
              Sample.click 5 5] in
  roi_points (fst (dispatch Sample.cv evs g))
    = [mkPoint 0 0; mkPoint 1 1; mkPoint 1 4; mkPoint 4 1] /\
  length (snd (dispatch Sample.cv evs g)) = 3%nat.
Proof.
  cbv zeta.
  destruct (recorded_points_are_first_left_clicks Sample.cv
              [mkMouseEvent 0 3 3; Sample.click 1 1; mkMouseEvent 2 2 2;
               Sample.click 1 4; Sample.click 4 1; Sample.click 4 4;
               Sample.click 5 5]
              (mkGlobals Sample.f0 [mkPoint 0 0] true) eq_refl)
    as (Hp & _ & Ht & _).
  split; [rewrite Hp|rewrite Ht]; reflexivity.
Defined.

(** The clicks of the square with the quit key pressed after each batch:
    the selection returns what it returns without it. *)
Lemma frame_roi_ignores_keys_witness :
  let g := mkGlobals Sample.f0 [] false in
  fst (fst (fst (frame_roi Sample.cv g
     [mkWait [Sample.click 1 1; Sample.click 1 4] char_q;
      mkWait [Sample.click 4 1; Sample.click 4 4] char_q] [])))
  = fst (fst (fst (frame_roi Sample.cv g (tl Sample.select_square) []))).
Proof.
  cbv zeta.
  apply (proj1 (frame_roi_ignores_keys Sample.cv [] (mkGlobals Sample.f0 [] false)
                  [mkWait [Sample.click 1 1; Sample.click 1 4] char_q;
                   mkWait [Sample.click 4 1; Sample.click 4 4] char_q]
                  (tl Sample.select_square) eq_refl)).
Defined.

(** Clicks and the space key, but never [i]. *)
Lemma idle_until_selection_key_witness :
  let ws := [mkWait [Sample.click 1 1] (-1); mkWait [Sample.click 2 2] 32] in
  roi_points (globals (snd (fst (main_loop Sample.cv main_init
                                   [Sample.f0; Sample.f0] ws [])))) = [] /\
  snd (main_loop Sample.cv main_init [Sample.f0; Sample.f0] ws [])
    = [EvImshow Sample.f0; EvImshow Sample.f0].
Proof.
  cbv zeta.
  destruct (idle_until_selection_key Sample.cv [] [Sample.f0; Sample.f0] main_init
              [mkWait [Sample.click 1 1] (-1); mkWait [Sample.click 2 2] 32])
    as ((_ & Hp & _) & _).
  - repeat split; reflexivity.
  - intros w [<-|[<-|[]]]; vm_compute; discriminate.
  - split; [exact Hp|reflexivity].
Defined.

(** Two frames after the selection of the square. *)
Lemma tracking_rounds_witness :
  let s := Sample.after Sample.select_square in
  snd (main_loop Sample.cv s [Sample.f0; Sample.f0] [Sample.no_key; Sample.no_key] [])
    = flat_map (tracked_round Sample.cv (roi_box s) (roi_hist s))
               [Sample.f0; Sample.f0] /\
  exists n,
    (n <= 2)%nat /\
    snd (main_loop Sample.cv s [Sample.f0; Sample.f0]
           [Sample.no_key; Sample.no_key] [])
    = flat_map (tracked_round Sample.cv (roi_box s) (roi_hist s))
               (firstn n [Sample.f0; Sample.f0]).
Proof.
  cbv zeta. split; [reflexivity|].
  apply (tracking_rounds Sample.cv [] [Sample.f0; Sample.f0]
           (Sample.after Sample.select_square) [Sample.no_key; Sample.no_key]).
  - reflexivity.
  - vm_compute. repeat constructor.
Defined.

(** The selection key and then three clicks only. *)
Lemma unfinished_selection_holds_loop_witness :
  let ws := [mkWait [Sample.click 1 1; Sample.click 1 4] 0;
             mkWait [Sample.click 4 1] char_q] in
  fst (fst (main_loop Sample.cv main_init [Sample.f0; Sample.f0]
              (mkWait [] char_i :: ws) [])) = Pending /\
  fst (fst (main Sample.cv Sample.no_args [Sample.f0; Sample.f0]
              (mkWait [] char_i :: ws) [])) = None.
Proof.
  cbv zeta.
  destruct (unfinished_selection_holds_loop Sample.cv [] main_init Sample.f0
              [Sample.f0] (mkWait [] char_i)
              [mkWait [Sample.click 1 1; Sample.click 1 4] 0;
               mkWait [Sample.click 4 1] char_q] Sample.no_args)
    as (Hst & _ & _ & _ & Hmain).
  - repeat split; reflexivity.
  - reflexivity.
  - reflexivity.
  - vm_compute. repeat constructor.
  - split; [exact Hst|exact Hmain].
Defined.
